(** * image_metadata_extractor: a shallow embedding and its properties

    The program under study is the single module
    [image_metadata_extractor.py].  It reads an image file, asks PIL for
    the container properties, asks exifread for the tag dictionary and
    assembles a report of six sections.

    The embedding follows the source function by function.  Python
    exceptions are an explicit error type, the tag dictionary is a finite
    map from tag names to tags, Python floats are IEEE binary64 numbers
    (the executable [spec_float] model of the Standard Library), and the
    report is an ordered association list, as a Python [dict] is. *)

From Stdlib Require Import ZArith String Ascii List Lia.
From Stdlib Require Import SpecFloat.
From stdpp Require Import base option list gmap strings pretty.

Local Open Scope string_scope.
Local Open Scope Z_scope.

(** ** Python exceptions and the error monad *)

Module Py.

Inductive exn : Type :=
| IndexError
| AttributeError
| ZeroDivisionError
| OverflowError
| FileNotFoundError
| PermissionError
| IsADirectoryError
| OSError
| UnidentifiedImageError.

Inductive result (A : Type) : Type :=
| Ok (a : A)
| Raise (e : exn).

Arguments Ok {A} a.
Arguments Raise {A} e.

Definition bind {A B : Type} (r : result A) (k : A -> result B) : result B :=
  match r with
  | Ok a => k a
  | Raise e => Raise e
  end.

Definition returns {A : Type} (r : result A) : Prop :=
  match r with
  | Ok _ => True
  | Raise _ => False
  end.

End Py.

Import Py.

Notation "'let*' x ':=' r 'in' k" := (Py.bind r (fun x => k))
  (at level 10, x name, r at level 200, k at level 200, only parsing).

(** ** Python floats

    A Python [float] is an IEEE 754 binary64 number.  [spec_float] with
    precision 53 and maximal exponent 1024 is that format, with
    round-to-nearest-even arithmetic. *)

Module PyFloat.

Definition float : Type := spec_float.

Definition prec : Z := 53.
Definition emax : Z := 1024.

Definition add : float -> float -> float := SFadd prec emax.
Definition mul : float -> float -> float := SFmul prec emax.
Definition div : float -> float -> float := SFdiv prec emax.

(** [float(n)] for a Python [int]: the nearest binary64 number, ties to
    even; an [int] beyond the range raises [OverflowError]. *)
Definition of_int (n : Z) : result float :=
  match binary_normalize prec emax n 0 false with
  | S754_infinity _ => Raise OverflowError
  | x => Ok x
  end.

(** The literals of the source, as binary64 numbers in canonical form. *)
Definition lit_60 : float := S754_finite false 8444249301319680 (-47).
Definition lit_3600 : float := S754_finite false 7916483719987200 (-41).
Definition lit_neg_1 : float := S754_finite true 4503599627370496 (-52).

Definition is_zero (x : float) : bool :=
  match x with
  | S754_zero _ => true
  | _ => false
  end.

(** [a / b] on floats raises [ZeroDivisionError] when [b == 0.0]. *)
Definition truediv (a b : float) : result float :=
  if is_zero b then Raise ZeroDivisionError else Ok (div a b).

(** *** Decimal output

    Both conversions below are exact: the binary value [m * 2^e] is taken
    as a fraction of integers and rounded once, as CPython's correctly
    rounded conversions do. *)

Definition sign_text (s : bool) : string := if s then "-" else "".

Fixpoint zeros (n : nat) : string :=
  match n with
  | O => ""
  | S n' => String "0" (zeros n')
  end.

(** The value of a finite float as [a / b], with [0 < b]. *)
Definition ratio_of (m : positive) (e : Z) : Z * Z :=
  if 0 <=? e then (Zpos m * 2 ^ e, 1) else (Zpos m, 2 ^ (- e)).

(** Nearest integer to [a / b], ties to even ([0 <= a], [0 < b]). *)
Definition round_half_even (a b : Z) : Z :=
  let q := a / b in
  match (2 * (a mod b)) ?= b with
  | Lt => q
  | Gt => q + 1
  | Eq => if Z.even q then q else q + 1
  end.

(** [n] scaled by [10^-p], printed with [p] digits after the point. *)
Definition fixed_digits (p : nat) (n : Z) : string :=
  let scale := 10 ^ Z.of_nat p in
  let frac := pretty (n mod scale) in
  pretty (n / scale) +:+
  match p with
  | O => ""
  | S _ => "." +:+ zeros (p - String.length frac) +:+ frac
  end.

(** [format(x, '.pf')]. *)
Definition format_f (p : nat) (x : float) : string :=
  match x with
  | S754_nan => "nan"
  | S754_infinity s => sign_text s +:+ "inf"
  | S754_zero s => sign_text s +:+ fixed_digits p 0
  | S754_finite s m e =>
      let '(a, b) := ratio_of m e in
      sign_text s +:+ fixed_digits p (round_half_even (a * 10 ^ Z.of_nat p) b)
  end.

(** [repr(x)]: the shortest decimal string that reads back as [x].

    A decimal [c] reads back as [x = m * 2^e] when it lies between the
    midpoints to the two neighbours of [x]; the midpoints themselves
    read back as [x] when [m] is even.  All comparisons are made on
    integers after scaling by [4 * b * 10^k]. *)

Definition decimal_digits (n : Z) : Z := Z.of_nat (String.length (pretty n)).

(** The decimal exponent [k] with [10^(k-1) <= a/b < 10^k]. *)
Definition decimal_point (a b : Z) : Z :=
  if b <=? a then decimal_digits (a / b) else 1 - decimal_digits (b / a).

(** Twice the distance from [x] to the lower midpoint, in units of
    [2^e / 4]: the gap below a power of two is half the gap above. *)
Definition lower_gap (m : positive) (e : Z) : Z :=
  if (Zpos m =? 2 ^ (prec - 1)) && (3 - emax - prec <? e) then 1 else 2.

(** [reads_back m e c k]: does the decimal [c * 10^k] round to [m * 2^e]? *)
Definition reads_back (m : positive) (e : Z) (c k : Z) : bool :=
  let '(a, b) := ratio_of m e in
  let '(cn, cd) := if 0 <=? k then (c * 10 ^ k, 1) else (c, 10 ^ (- k)) in
  (* x = a/b, one unit in the last place is u = (a/b)/m, so with
     everything multiplied by 4*m*b*cd: *)
  let x4 := 4 * Zpos m * a * cd in
  let u := a * cd in
  let c4 := 4 * Zpos m * b * cn in
  let lo := x4 - lower_gap m e * u in
  let hi := x4 + 2 * u in
  if Z.even (Zpos m) then (lo <=? c4) && (c4 <=? hi)
  else (lo <? c4) && (c4 <? hi).

(** The two [n]-digit decimals around [a/b], nearest first; when the
    value lies exactly half way between them, the one whose last digit
    is even comes first. *)
Definition candidates (a b dp : Z) (n : Z) : list (Z * Z) :=
  let k := dp - n in
  let '(vn, vd) := if 0 <=? k then (a, b * 10 ^ k) else (a * 10 ^ (- k), b) in
  let lo := vn / vd in
  let r := vn mod vd in
  if r =? 0 then [(lo, k)]
  else
    match 2 * r ?= vd with
    | Lt => [(lo, k); (lo + 1, k)]
    | Gt => [(lo + 1, k); (lo, k)]
    | Eq => if Z.even lo then [(lo, k); (lo + 1, k)] else [(lo + 1, k); (lo, k)]
    end.

Fixpoint shortest_from (fuel : nat) (m : positive) (e : Z) (a b dp n : Z) : Z * Z :=
  match fuel with
  | O => (0, 0)
  | S fuel' =>
      match filter (fun ck => reads_back m e (fst ck) (snd ck) = true) (candidates a b dp n) with
      | ck :: _ => ck
      | [] => shortest_from fuel' m e a b dp (n + 1)
      end
  end.

(** Trailing zeros of the digits move into the exponent. *)
Fixpoint strip_zeros (fuel : nat) (c k : Z) : Z * Z :=
  match fuel with
  | O => (c, k)
  | S fuel' => if (c mod 10 =? 0) && negb (c =? 0) then strip_zeros fuel' (c / 10) (k + 1) else (c, k)
  end.

(** The digits of [repr] and the position of the decimal point. *)
Definition shortest (m : positive) (e : Z) : string * Z :=
  let '(a, b) := ratio_of m e in
  let '(c, k) := shortest_from 17 m e a b (decimal_point a b) 1 in
  let '(c', k') := strip_zeros 2 c k in
  let ds := pretty c' in
  (ds, k' + Z.of_nat (String.length ds)).

Definition exponent_text (x : Z) : string :=
  let d := pretty (Z.abs x) in
  (if x <? 0 then "-" else "+") +:+ zeros (2 - String.length d) +:+ d.

Definition repr_finite (m : positive) (e : Z) : string :=
  let '(ds, dp) := shortest m e in
  let n := Z.of_nat (String.length ds) in
  if (dp <=? -4) || (16 <? dp) then
    String.substring 0 1 ds +:+
    (if 1 <? n then "." +:+ String.substring 1 (String.length ds - 1) ds else "") +:+
    "e" +:+ exponent_text (dp - 1)
  else if dp <=? 0 then "0." +:+ zeros (Z.to_nat (- dp)) +:+ ds
  else if n <=? dp then ds +:+ zeros (Z.to_nat (dp - n)) +:+ ".0"
  else String.substring 0 (Z.to_nat dp) ds +:+ "." +:+
       String.substring (Z.to_nat dp) (String.length ds - Z.to_nat dp) ds.

(** [repr(x)], which is also [str(x)] and [format(x, '')]. *)
Definition repr (x : float) : string :=
  match x with
  | S754_nan => "nan"
  | S754_infinity s => sign_text s +:+ "inf"
  | S754_zero s => sign_text s +:+ "0.0"
  | S754_finite s m e => sign_text s +:+ repr_finite m e
  end.

End PyFloat.

Import PyFloat.

(** ** The exifread data model

    [exifread.process_file] returns a dictionary from tag names such as
    ["EXIF Flash"] to [IfdTag] objects.  The program reads two
    attributes of a tag: [printable] (through [str(tag)]) and [values],
    which is a [str] for ASCII tags and a list of numbers otherwise.  A
    number is an [int] or a [Ratio]; [Ratio] is a subclass of
    [fractions.Fraction] with the extra properties [num] and [den], and
    it keeps a zero denominator as it was read. *)

Inductive number : Type :=
| Int (n : Z)
| Ratio (num den : Z).

Inductive tag_values : Type :=
| Items (l : list number)
| Text (s : string).

Record IfdTag : Type := mkIfdTag {
  printable : string;
  values : tag_values
}.

(** An element of [values]: a number, or a one-character [str]. *)
Inductive item : Type :=
| Num (x : number)
| Chr (c : string).

(** A Python [str] is a sequence of characters.  It is held here as its
    UTF-8 bytes, in which a byte of the form [10xxxxxx] continues the
    character that the bytes before it began; [chars] cuts the bytes
    into the characters, each a one-character [str]. *)
Definition is_continuation (c : ascii) : bool :=
  match c with
  | Ascii _ _ _ _ _ _ b6 b7 => b7 && negb b6
  end.

Definition continues (ch : string) : bool :=
  match ch with
  | String c _ => is_continuation c
  | EmptyString => false
  end.

Fixpoint chars (s : string) : list string :=
  match s with
  | EmptyString => []
  | String c rest =>
      match chars rest with
      | ch :: more =>
          if continues ch then String c ch :: more else String c "" :: ch :: more
      | [] => [String c ""]
      end
  end.

(** [values[i]] for a non-negative literal [i]; a [str] is indexed by
    character. *)
Definition index (v : tag_values) (i : nat) : result item :=
  match v with
  | Items l =>
      match l !! i with
      | Some x => Ok (Num x)
      | None => Raise IndexError
      end
  | Text s =>
      match chars s !! i with
      | Some ch => Ok (Chr ch)
      | None => Raise IndexError
      end
  end.

(** [str(x)] of a number; for a [Ratio] this is [Fraction.__str__]. *)
Definition str_number (x : number) : string :=
  match x with
  | Int n => pretty n
  | Ratio n d => if d =? 1 then pretty n else pretty n +:+ "/" +:+ pretty d
  end.

(** [str(x)], which is what an f-string field prints. *)
Definition str_item (x : item) : string :=
  match x with
  | Num n => str_number n
  | Chr c => c
  end.

(** [isinstance(x, Fraction)]. *)
Definition is_Fraction (x : item) : bool :=
  match x with
  | Num (Ratio _ _) => true
  | _ => false
  end.

(** The integer an item is equal to, if any: [Fraction(n, 1) == n], and
    the two have the same hash, so that either finds the key [n] of a
    dictionary. *)
Definition as_int (x : item) : option Z :=
  match x with
  | Num (Int n) => Some n
  | Num (Ratio n d) => if d =? 1 then Some n else None
  | Chr _ => None
  end.

(** [x == k] for an [int] literal [k]. *)
Definition eq_int (x : item) (k : Z) : bool :=
  match as_int x with
  | Some n => n =? k
  | None => false
  end.

(** [x == 'c'] for a one-character literal. *)
Definition eq_chr (x : item) (c : ascii) : bool :=
  match x with
  | Chr c' => String.eqb c' (String c "")
  | Num _ => false
  end.

(** [x.num] and [x.den]: only a [Ratio] has them. *)
Definition num (x : item) : result Z :=
  match x with
  | Num (Ratio n _) => Ok n
  | _ => Raise AttributeError
  end.

Definition den (x : item) : result Z :=
  match x with
  | Num (Ratio _ d) => Ok d
  | _ => Raise AttributeError
  end.

(** [table.get(x, default)] for a table with [int] keys. *)
Definition table_get (table : gmap Z string) (x : item) (fallback : string) : string :=
  match as_int x with
  | Some k => default fallback (table !! k)
  | None => fallback
  end.

(** [f"{values}"]: a [str] prints as itself, a list as its [repr]. *)
Fixpoint join (sep : string) (l : list string) : string :=
  match l with
  | [] => ""
  | [s] => s
  | s :: rest => s +:+ sep +:+ join sep rest
  end.

Definition format_values (v : tag_values) : string :=
  match v with
  | Items l => "[" +:+ join ", " (map str_number l) +:+ "]"
  | Text s => s
  end.

(** [str(tags.get(key, default))]: [str] of a tag is its [printable]. *)
Definition str_get (tags : gmap string IfdTag) (key fallback : string) : string :=
  match tags !! key with
  | Some tag => printable tag
  | None => fallback
  end.

(** ** Report values *)

Inductive pyval : Type :=
| PNone
| PStr (s : string)
| PInt (n : Z)
| PFloat (x : float)
| PPair (a b : pyval).

(** A Python [dict] with [str] keys, in insertion order. *)
Definition dict (V : Type) : Type := list (string * V).

(** [d[k] = v]. *)
Fixpoint dict_set {V : Type} (d : dict V) (k : string) (v : V) : dict V :=
  match d with
  | [] => [(k, v)]
  | (k', v') :: rest =>
      if String.eqb k' k then (k, v) :: rest else (k', v') :: dict_set rest k v
  end.

Definition dict_get {V : Type} (d : dict V) (k : string) : option V :=
  snd <$> List.find (fun kv => String.eqb (fst kv) k) d.

(** A section of the report is a dictionary of fields, or a bare string. *)
Inductive section : Type :=
| Fields (d : dict pyval)
| Sentinel (s : string).

Definition report : Type := dict section.

(** ** The functions of [image_metadata_extractor.py]

    An [IfdTag] defines neither [__bool__] nor [__len__], so a tag is
    always true: [if tag:] tests that [tags.get] did not return [None].
    The values of the dictionary under the tag names used here are
    always [IfdTag] objects, so the [isinstance] tests of
    [_get_orientation] and [_get_color_space] are tests for [None] too. *)

Definition _fraction_to_readable (fraction : option IfdTag) (default_value : string)
  : result string :=
  match fraction with
  | None => Ok default_value
  | Some tag =>
      let* v0 := index (values tag) 0 in
      if is_Fraction v0 then Ok (str_item v0)
      else
        let* v0' := index (values tag) 0 in
        let* v1 := index (values tag) 1 in
        Ok (str_item v0' +:+ "/" +:+ str_item v1)
  end.

(** The resolvers that share one shape: a table, a tag name, ["Unknown"]
    for a code outside the table and ["N/A"] for a missing tag. *)
Definition resolve (table : gmap Z string) (key : string) (tags : gmap string IfdTag)
  : result string :=
  match tags !! key with
  | Some tag =>
      let* code := index (values tag) 0 in
      Ok (table_get table code "Unknown")
  | None => Ok "N/A"
  end.

Definition exposure_modes : gmap Z string :=
  {[ 0 := "Auto"; 1 := "Manual"; 2 := "Auto bracket" ]}.

Definition _get_exposure_mode : gmap string IfdTag -> result string :=
  resolve exposure_modes "EXIF ExposureMode".

Definition white_balance_modes : gmap Z string :=
  {[ 0 := "Auto"; 1 := "Manual" ]}.

Definition _get_white_balance : gmap string IfdTag -> result string :=
  resolve white_balance_modes "EXIF WhiteBalance".

Definition _get_flash_info (tags : gmap string IfdTag) : result string :=
  match tags !! "EXIF Flash" with
  | Some flash_info =>
      let* flash_value := index (values flash_info) 0 in
      if eq_int flash_value 0 then Ok "Flash did not fire"
      else if eq_int flash_value 1 then Ok "Flash fired"
      else Ok "Unknown"
  | None => Ok "N/A"
  end.

Definition orientations : gmap Z string :=
  {[ 1 := "Normal";
     2 := "Mirrored horizontally";
     3 := "Rotated 180 degrees";
     4 := "Mirrored vertically";
     5 := "Mirrored horizontally and rotated 270 degrees CW";
     6 := "Rotated 90 degrees CW";
     7 := "Mirrored horizontally and rotated 90 degrees CW";
     8 := "Rotated 270 degrees CW" ]}.

Definition _get_orientation (tags : gmap string IfdTag) : result string :=
  match tags !! "Image Orientation" with
  | Some orientation_tag =>
      let* orientation := index (values orientation_tag) 0 in
      Ok (table_get orientations orientation "N/A")
  | None => Ok "N/A"
  end.

Definition color_spaces : gmap Z string :=
  {[ 1 := "sRGB"; 2 := "Adobe RGB" ]}.

Definition _get_color_space (tags : gmap string IfdTag) : result string :=
  match tags !! "EXIF ColorSpace" with
  | Some color_space_tag =>
      let* color_space := index (values color_space_tag) 0 in
      Ok (table_get color_spaces color_space "N/A")
  | None => Ok "N/A"
  end.

Definition metering_modes : gmap Z string :=
  {[ 0 := "Unknown";
     1 := "Average";
     2 := "Center-weighted average";
     3 := "Spot";
     4 := "Multi-spot";
     5 := "Pattern";
     6 := "Partial" ]}.

Definition _get_metering_mode : gmap string IfdTag -> result string :=
  resolve metering_modes "EXIF MeteringMode".

Definition exposure_programs : gmap Z string :=
  {[ 0 := "Not defined";
     1 := "Manual";
     2 := "Normal program";
     3 := "Aperture priority";
     4 := "Shutter priority";
     5 := "Creative program";
     6 := "Action program";
     7 := "Portrait mode";
     8 := "Landscape mode" ]}.

Definition _get_exposure_program : gmap string IfdTag -> result string :=
  resolve exposure_programs "EXIF ExposureProgram".

Definition scene_capture_types : gmap Z string :=
  {[ 0 := "Standard"; 1 := "Landscape"; 2 := "Portrait"; 3 := "Night scene" ]}.

Definition _get_scene_capture_type : gmap string IfdTag -> result string :=
  resolve scene_capture_types "EXIF SceneCaptureType".

Definition resolution_units : gmap Z string :=
  {[ 1 := "No absolute unit of measurement"; 2 := "Inches"; 3 := "Centimeters" ]}.

Definition _get_resolution_unit : gmap string IfdTag -> result string :=
  resolve resolution_units "Image ResolutionUnit".

Definition _get_resolution (tags : gmap string IfdTag) : result string :=
  let* x_resolution := _fraction_to_readable (tags !! "Image XResolution") "N/A" in
  let* y_resolution := _fraction_to_readable (tags !! "Image YResolution") "N/A" in
  let* resolution_unit := _get_resolution_unit tags in
  Ok (x_resolution +:+ " x " +:+ y_resolution +:+ " " +:+ resolution_unit).

Definition ycbcr_positions : gmap Z string :=
  {[ 1 := "Centered"; 2 := "Co-sited" ]}.

Definition _get_ycbcr_positioning : gmap string IfdTag -> result string :=
  resolve ycbcr_positions "Image YCbCrPositioning".

Definition focus_modes : gmap Z string :=
  {[ 0 := "Manual"; 1 := "Auto" ]}.

Definition _get_focus_mode : gmap string IfdTag -> result string :=
  resolve focus_modes "EXIF FocusMode".

Definition shooting_modes : gmap Z string :=
  {[ 0 := "Normal"; 1 := "Portrait"; 2 := "Landscape" ]}.

Definition _get_shooting_mode : gmap string IfdTag -> result string :=
  resolve shooting_modes "EXIF ShootingMode".

Definition _get_noise_reduction (tags : gmap string IfdTag) : result string :=
  match tags !! "EXIF NoiseReduction" with
  | Some noise_reduction_tag =>
      let* code := index (values noise_reduction_tag) 0 in
      Ok (if eq_int code 1 then "On" else "Off")
  | None => Ok "N/A"
  end.

Definition _get_subject_area (tags : gmap string IfdTag) : result string :=
  match tags !! "EXIF SubjectArea" with
  | Some subject_area_tag => Ok (format_values (values subject_area_tag))
  | None => Ok "N/A"
  end.

(** [float(value.values[i].num) / float(value.values[i].den)]. *)
Definition num_over_den (v : tag_values) (i : nat) : result float :=
  let* a := index v i in
  let* n := num a in
  let* x := of_int n in
  let* b := index v i in
  let* d := den b in
  let* y := of_int d in
  truediv x y.

Definition _convert_to_degrees (value : IfdTag) : result float :=
  let* d := num_over_den (values value) 0 in
  let* m := num_over_den (values value) 1 in
  let* s := num_over_den (values value) 2 in
  let* m60 := truediv m lit_60 in
  let* s3600 := truediv s lit_3600 in
  Ok (add (add d m60) s3600).

(** The degree sign of the source, as its two UTF-8 bytes, and the space
    that follows it. *)
Definition degree_sign : string := "° ".

Definition _extract_gps_info (tags : gmap string IfdTag) : result section :=
  let lat := tags !! "GPS GPSLatitude" in
  let lat_ref := tags !! "GPS GPSLatitudeRef" in
  let lon := tags !! "GPS GPSLongitude" in
  let lon_ref := tags !! "GPS GPSLongitudeRef" in
  let alt := tags !! "GPS GPSAltitude" in
  let gps_info : dict pyval := [] in
  let* gps_info :=
    match lat, lat_ref, lon, lon_ref with
    | Some lat, Some lat_ref, Some lon, Some lon_ref =>
        let* latitude := _convert_to_degrees lat in
        let* longitude := _convert_to_degrees lon in
        let* ref := index (values lat_ref) 0 in
        let latitude := if eq_chr ref "S" then mul latitude lit_neg_1 else latitude in
        let* ref := index (values lon_ref) 0 in
        let longitude := if eq_chr ref "W" then mul longitude lit_neg_1 else longitude in
        let* ref := index (values lat_ref) 0 in
        let gps_info :=
          dict_set gps_info "Latitude"
            (PStr (format_f 5 latitude +:+ degree_sign +:+
                   (if eq_chr ref "S" then "S" else "N"))) in
        let* ref := index (values lon_ref) 0 in
        let gps_info :=
          dict_set gps_info "Longitude"
            (PStr (format_f 5 longitude +:+ degree_sign +:+
                   (if eq_chr ref "W" then "W" else "E"))) in
        Ok (dict_set gps_info "Google Maps Link"
              (PStr ("https://www.google.com/maps?q=" +:+ repr latitude +:+ "," +:+
                     repr longitude)))
    | _, _, _, _ => Ok gps_info
    end in
  let* gps_info :=
    match alt with
    | Some alt =>
        let* altitude := num_over_den (values alt) 0 in
        Ok (dict_set gps_info "Altitude" (PStr (format_f 2 altitude +:+ " meters")))
    | None => Ok gps_info
    end in
  Ok (match gps_info with
      | [] => Sentinel "N/A"
      | _ :: _ => Fields gps_info
      end).

(** ** The file system and the two libraries

    What the program asks of its surroundings: whether the path names a
    regular file ([os.path.isfile]), the size of the file
    ([os.path.getsize]), the image PIL finds in it ([Image.open]) and
    the tag dictionary exifread finds in it ([exifread.process_file],
    which returns an empty dictionary when there is no EXIF segment).
    A file that exists may still be unreadable: [os.path.isfile] only
    stats it, and opening it then raises [PermissionError].  A file may
    also lie below a directory that the process may not search: then
    every system call on its path is denied, [os.path.isfile] catches
    the error of [os.stat] and answers [False]. *)

Record PILImage : Type := mkImage {
  format : pyval;
  size : Z * Z;
  mode : string;
  info : gmap string pyval
}.

Record regular_file : Type := mkFile {
  readable : bool;
  st_size : Z;
  image : option PILImage;
  exif : gmap string IfdTag
}.

(** What a path leads to: a regular file or a directory that [os.stat]
    can see, or a regular file that it is denied access to. *)
Inductive node : Type :=
| RegularFile (f : regular_file)
| Directory (dir_size : Z)
| Unsearchable (f : regular_file).

(** [os.path.isfile(path)]: [os.stat] succeeds and finds a regular
    file. *)
Definition isfile (fs : gmap string node) (path : string) : bool :=
  match fs !! path with
  | Some (RegularFile _) => true
  | _ => false
  end.

(** [open(path, 'rb')]. *)
Definition open_rb (fs : gmap string node) (path : string) : result regular_file :=
  match fs !! path with
  | Some (RegularFile f) => if readable f then Ok f else Raise PermissionError
  | Some (Directory _) => Raise IsADirectoryError
  | Some (Unsearchable _) => Raise PermissionError
  | None => Raise FileNotFoundError
  end.

(** [Image.open(path)]: opens the file, then identifies the container. *)
Definition Image_open (fs : gmap string node) (path : string) : result PILImage :=
  let* f := open_rb fs path in
  match image f with
  | Some img => Ok img
  | None => Raise UnidentifiedImageError
  end.

(** [os.path.getsize(path)]. *)
Definition getsize (fs : gmap string node) (path : string) : result Z :=
  match fs !! path with
  | Some (RegularFile f) => Ok (st_size f)
  | Some (Directory dir_size) => Ok dir_size
  | Some (Unsearchable _) => Raise PermissionError
  | None => Raise FileNotFoundError
  end.

(** [exifread.process_file(img_file)]. *)
Definition process_file (img_file : regular_file) : gmap string IfdTag :=
  exif img_file.

(** [os.path.basename]: what follows the last slash. *)
Fixpoint basename (p : string) : string :=
  match p with
  | EmptyString => ""
  | String c rest =>
      if existsb (Ascii.eqb "/") (list_ascii_of_string rest) then basename rest
      else if Ascii.eqb c "/" then rest
      else p
  end.

(** ** The report, section by section *)

Definition image_properties (img : PILImage) (file_size : Z) : dict pyval :=
  [ ("Format", format img);
    ("Size", PStr (pretty (fst (size img)) +:+ " x " +:+ pretty (snd (size img)) +:+ " pixels"));
    ("Color Mode", PStr (mode img));
    ("File Size", PInt file_size);
    ("DPI", default (PStr "N/A") (info img !! "dpi"));
    ("Duration", default (PStr "N/A") (info img !! "duration")) ].

Definition camera_information (tags : gmap string IfdTag) : dict pyval :=
  [ ("Make", PStr (str_get tags "Image Make" "N/A"));
    ("Model", PStr (str_get tags "Image Model" "N/A"));
    ("Software", PStr (str_get tags "Image Software" "N/A"));
    ("Lens Model", PStr (str_get tags "EXIF LensModel" "N/A"));
    ("Camera Serial Number", PStr (str_get tags "EXIF CameraSerialNumber" "N/A"));
    ("Date of Manufacture", PStr (str_get tags "EXIF DateTimeOriginal" "N/A")) ].

Definition date_and_time (tags : gmap string IfdTag) : dict pyval :=
  [ ("Taken", PStr (str_get tags "EXIF DateTimeOriginal" "N/A"));
    ("Digitized", PStr (str_get tags "EXIF DateTimeDigitized" "N/A"));
    ("DateTime", PStr (str_get tags "EXIF DateTime" "N/A"));
    ("Time Zone Offset", PStr (str_get tags "EXIF OffsetTimeOriginal" "N/A")) ].

Definition camera_settings (tags : gmap string IfdTag) : result (dict pyval) :=
  let* exposure_time := _fraction_to_readable (tags !! "EXIF ExposureTime") "N/A" in
  let* f_number := _fraction_to_readable (tags !! "EXIF FNumber") "N/A" in
  let* focal_length := _fraction_to_readable (tags !! "EXIF FocalLength") "N/A " in
  let* exposure_mode := _get_exposure_mode tags in
  let* white_balance := _get_white_balance tags in
  let* flash := _get_flash_info tags in
  let* metering_mode := _get_metering_mode tags in
  let* exposure_program := _get_exposure_program tags in
  let* brightness := _fraction_to_readable (tags !! "EXIF BrightnessValue") "N/A" in
  let* exposure_bias := _fraction_to_readable (tags !! "EXIF ExposureBiasValue") "N/A" in
  let* max_aperture := _fraction_to_readable (tags !! "EXIF MaxApertureValue") "N/A" in
  let* digital_zoom := _fraction_to_readable (tags !! "EXIF DigitalZoomRatio") "N/A" in
  let* scene_capture_type := _get_scene_capture_type tags in
  let* shutter_speed := _fraction_to_readable (tags !! "EXIF ShutterSpeedValue") "N/A" in
  let* aperture := _fraction_to_readable (tags !! "EXIF ApertureValue") "N/A" in
  let* color_space := _get_color_space tags in
  let* focus_mode := _get_focus_mode tags in
  let* shooting_mode := _get_shooting_mode tags in
  let* noise_reduction := _get_noise_reduction tags in
  let* subject_area := _get_subject_area tags in
  Ok [ ("Exposure Time", PStr exposure_time);
       ("F-Number", PStr f_number);
       ("ISO Speed", PStr (str_get tags "EXIF ISOSpeedRatings" "N/A"));
       ("Focal Length", PStr (focal_length +:+ "mm"));
       ("Focal Length (35mm equivalent)",
        PStr (str_get tags "EXIF FocalLengthIn35mmFilm" "N/A " +:+ "mm"));
       ("Exposure Mode", PStr exposure_mode);
       ("White Balance", PStr white_balance);
       ("Flash", PStr flash);
       ("Metering Mode", PStr metering_mode);
       ("Exposure Program", PStr exposure_program);
       ("Brightness Value", PStr brightness);
       ("Exposure Bias", PStr exposure_bias);
       ("Max Aperture Value", PStr max_aperture);
       ("Digital Zoom Ratio", PStr digital_zoom);
       ("Scene Capture Type", PStr scene_capture_type);
       ("Shutter Speed Value", PStr shutter_speed);
       ("Aperture Value", PStr aperture);
       ("Color Space", PStr color_space);
       ("Focus Mode", PStr focus_mode);
       ("Shooting Mode", PStr shooting_mode);
       ("Noise Reduction", PStr noise_reduction);
       ("Subject Area", PStr subject_area) ].

Definition other_details (tags : gmap string IfdTag) (file_path : string)
  : result (dict pyval) :=
  let* orientation := _get_orientation tags in
  let* ycbcr_positioning := _get_ycbcr_positioning tags in
  let* resolution := _get_resolution tags in
  let* subject_distance := _fraction_to_readable (tags !! "EXIF SubjectDistance") "N/A" in
  let* metering_mode := _get_metering_mode tags in
  Ok [ ("Orientation", PStr orientation);
       ("YCbCr Positioning", PStr ycbcr_positioning);
       ("Resolution", PStr resolution);
       ("Unique Image ID", PStr (str_get tags "EXIF ImageUniqueID" "N/A"));
       ("Exif Version", PStr (str_get tags "EXIF ExifVersion" "N/A"));
       ("Compression", PStr (str_get tags "EXIF Compression" "N/A"));
       ("Image Width", PStr (str_get tags "EXIF ExifImageWidth" "N/A"));
       ("Image Length", PStr (str_get tags "EXIF ExifImageLength" "N/A"));
       ("Subject Distance", PStr subject_distance);
       ("Metering Mode", PStr metering_mode);
       ("File Name", PStr (basename file_path));
       ("File Path", PStr file_path) ].

(** The part of [extract_clean_image_info] that runs on the tag
    dictionary: the four sections filled from [tags], added to [info]
    in the order of the source. *)
Definition tag_sections (info : report) (tags : gmap string IfdTag) (file_path : string)
  : result report :=
  let info := dict_set info "Camera Information" (Fields (camera_information tags)) in
  let info := dict_set info "Date and Time" (Fields (date_and_time tags)) in
  let* settings := camera_settings tags in
  let info := dict_set info "Camera Settings" (Fields settings) in
  let* gps := _extract_gps_info tags in
  let info := dict_set info "GPS Information" gps in
  let* other := other_details tags file_path in
  Ok (dict_set info "Other Details" (Fields other)).

Definition extract_clean_image_info (fs : gmap string node) (file_path : string)
  : result report :=
  if negb (isfile fs file_path) then Raise FileNotFoundError
  else
    let info : report := [] in
    let* img := Image_open fs file_path in
    let* file_size := getsize fs file_path in
    let info := dict_set info "Image Properties" (Fields (image_properties img file_size)) in
    let* img_file := open_rb fs file_path in
    tag_sections info (process_file img_file) file_path.

(** ** The calls inside a process

    [extract_clean_image_info] above takes the file system as a value.
    Here the same function runs inside a process.  The world is the file
    system, the descriptors the process holds open (each by the path it
    was opened on) and the number of descriptors it may hold.  [open]
    asks for a descriptor first and fails with [OSError] (too many open
    files) when none is left; leaving a [with] block closes the file,
    whether the block ends normally or with an exception. *)

Record world : Type := mkWorld {
  files : gmap string node;
  open_files : list string;
  max_open : nat
}.

Definition io (A : Type) : Type := world -> world * result A.

Definition io_ret {A : Type} (a : A) : io A := fun w => (w, Ok a).

Definition io_raise {A : Type} (e : exn) : io A := fun w => (w, Raise e).

Definition io_lift {A : Type} (r : result A) : io A := fun w => (w, r).

Definition io_bind {A B : Type} (m : io A) (k : A -> io B) : io B :=
  fun w =>
    match m w with
    | (w', Ok a) => k a w'
    | (w', Raise e) => (w', Raise e)
    end.

Notation "'do*' x ':=' m 'in' k" := (io_bind m (fun x => k))
  (at level 10, x name, m at level 200, k at level 200, only parsing).

(** A descriptor is left. *)
Definition has_room (w : world) : bool :=
  (length (open_files w) <? max_open w)%nat.

(** [os.path.isfile] and [os.path.getsize] only stat the path. *)
Definition os_path_isfile (path : string) : io bool :=
  fun w => (w, Ok (isfile (files w) path)).

Definition os_path_getsize (path : string) : io Z :=
  fun w => (w, getsize (files w) path).

(** The world with one more descriptor, on [path], and with the latest
    descriptor on [path] given back. *)
Definition hold (path : string) (w : world) : world :=
  mkWorld (files w) (path :: open_files w) (max_open w).

Fixpoint release (path : string) (held : list string) : list string :=
  match held with
  | [] => []
  | p :: rest => if String.eqb p path then rest else p :: release path rest
  end.

Definition drop (path : string) (w : world) : world :=
  mkWorld (files w) (release path (open_files w)) (max_open w).

(** [open(path, 'rb')] in the process: on success the descriptor is
    held. *)
Definition builtins_open (path : string) : io regular_file :=
  fun w =>
    if has_room w then
      match open_rb (files w) path with
      | Ok f => (hold path w, Ok f)
      | Raise e => (w, Raise e)
      end
    else (w, Raise OSError).

(** [close()] of the file opened on [path]. *)
Definition close (path : string) : io unit :=
  fun w => (drop path w, Ok tt).

(** [Image.open(path)] in the process: PIL opens the file, and closes it
    again before it raises when it finds no image. *)
Definition PIL_Image_open (path : string) : io PILImage :=
  do* fp := builtins_open path in
  match image fp with
  | Some img => io_ret img
  | None => do* closed := close path in io_raise UnidentifiedImageError
  end.

(** [with acquire as x: body], for a file or an image opened on [path]:
    [__exit__] closes it on every way out of the body. *)
Definition with_as {A B : Type} (acquire : io A) (path : string) (body : A -> io B)
  : io B :=
  fun w =>
    match acquire w with
    | (w1, Ok x) =>
        let '(w2, r) := body x w1 in
        (fst (close path w2), r)
    | (w1, Raise e) => (w1, Raise e)
    end.

Definition extract_clean_image_info_io (file_path : string) : io report :=
  do* is_file := os_path_isfile file_path in
  if negb is_file then io_raise FileNotFoundError
  else
    let info : report := [] in
    do* info :=
      with_as (PIL_Image_open file_path) file_path (fun img =>
        do* file_size := os_path_getsize file_path in
        io_ret (dict_set info "Image Properties"
                  (Fields (image_properties img file_size)))) in
    with_as (builtins_open file_path) file_path (fun img_file =>
      io_lift (tag_sections info (process_file img_file) file_path)).

(** ** Printing the report

    [print_clean_image_info] writes the report to standard output.  The
    output is modelled as the list of the arguments of the successive
    [print] calls; each is followed by a newline on the terminal.  A
    field prints through [str]: a [str] prints as itself, a number as
    its decimal text, a tuple as the [repr] of its parts.  The [repr]
    of a [str] (quoting and escapes, which follow the Unicode database)
    is not modelled and stays a parameter. *)

Section Printing.

Variable repr_str : string -> string.

Fixpoint repr_pyval (v : pyval) : string :=
  match v with
  | PNone => "None"
  | PStr s => repr_str s
  | PInt n => pretty n
  | PFloat x => repr x
  | PPair a b => "(" +:+ repr_pyval a +:+ ", " +:+ repr_pyval b +:+ ")"
  end.

Definition str_pyval (v : pyval) : string :=
  match v with
  | PStr s => s
  | _ => repr_pyval v
  end.

Definition newline : string := String "010"%char "".

(** The lines one category prints: its header, then its fields or, for
    a value that is not a dictionary, the value itself. *)
Definition print_category (category : string) (data : section) : list string :=
  (newline +:+ category +:+ ":") ::
  match data with
  | Fields d => map (fun kv => "  " +:+ fst kv +:+ ": " +:+ str_pyval (snd kv)) d
  | Sentinel s => ["  " +:+ s]
  end.

Definition print_clean_image_info (info : report) : list string :=
  flat_map (fun cd => print_category (fst cd) (snd cd)) info.

End Printing.

(** * Vocabulary of the statements

    The rationals of an EXIF segment are pairs of 32-bit integers.  Every
    integer below [2^53] in absolute value is a binary64 number, so
    [float(n)] neither rounds nor overflows, and is zero only for
    [n = 0]. *)

Definition to_float (n : Z) : float := binary_normalize prec emax n 0 false.

Definition exact_int (n : Z) : bool := Z.abs n <? 2 ^ 53.

(** A rational the GPS conversion can divide: a [Ratio] whose
    denominator is not zero. *)
Definition dividable (x : number) : bool :=
  match x with
  | Ratio _ d => negb (d =? 0)
  | Int _ => false
  end.

(** A dividable rational of two integers in the exact range. *)
Definition good_ratio (x : number) : bool :=
  match x with
  | Ratio n d => exact_int n && exact_int d && negb (d =? 0)
  | Int _ => false
  end.

(** The float quotient numerator / denominator of a rational. *)
Definition quotient (x : number) : float :=
  match x with
  | Ratio n d => div (to_float n) (to_float d)
  | Int n => to_float n
  end.

(** Degrees, minutes and seconds as decimal degrees, in the words of the
    specification: degrees + minutes/60 + seconds/3600. *)
Definition decimal_degrees (d m s : float) : float :=
  add (add d (div m lit_60)) (div s lit_3600).

(** The hemisphere rule: one reference letter flips the sign, every
    other value leaves the number as it is. *)
Definition signed_by (ref : item) (negative : ascii) (x : float) : float :=
  if eq_chr ref negative then mul x lit_neg_1 else x.

Definition hemisphere (ref : item) (negative positive : ascii) : string :=
  if eq_chr ref negative then String negative "" else String positive "".

(** The code tables as the specification lists them. *)
Definition label_of (labels : list (Z * string)) (c : Z) : option string :=
  snd <$> List.find (fun cl => fst cl =? c) labels.

Definition spec_exposure_mode : list (Z * string) :=
  [(0, "Auto"); (1, "Manual"); (2, "Auto bracket")].
Definition spec_white_balance : list (Z * string) :=
  [(0, "Auto"); (1, "Manual")].
Definition spec_flash : list (Z * string) :=
  [(0, "Flash did not fire"); (1, "Flash fired")].
Definition spec_metering_mode : list (Z * string) :=
  [(0, "Unknown"); (1, "Average"); (2, "Center-weighted average"); (3, "Spot");
   (4, "Multi-spot"); (5, "Pattern"); (6, "Partial")].
Definition spec_exposure_program : list (Z * string) :=
  [(0, "Not defined"); (1, "Manual"); (2, "Normal program"); (3, "Aperture priority");
   (4, "Shutter priority"); (5, "Creative program"); (6, "Action program");
   (7, "Portrait mode"); (8, "Landscape mode")].
Definition spec_scene_capture_type : list (Z * string) :=
  [(0, "Standard"); (1, "Landscape"); (2, "Portrait"); (3, "Night scene")].
Definition spec_color_space : list (Z * string) :=
  [(1, "sRGB"); (2, "Adobe RGB")].
Definition spec_resolution_unit : list (Z * string) :=
  [(1, "No absolute unit of measurement"); (2, "Inches"); (3, "Centimeters")].
Definition spec_ycbcr_positioning : list (Z * string) :=
  [(1, "Centered"); (2, "Co-sited")].
Definition spec_focus_mode : list (Z * string) :=
  [(0, "Manual"); (1, "Auto")].
Definition spec_shooting_mode : list (Z * string) :=
  [(0, "Normal"); (1, "Portrait"); (2, "Landscape")].
Definition spec_orientation : list (Z * string) :=
  [(1, "Normal"); (2, "Mirrored horizontally"); (3, "Rotated 180 degrees");
   (4, "Mirrored vertically");
   (5, "Mirrored horizontally and rotated 270 degrees CW");
   (6, "Rotated 90 degrees CW");
   (7, "Mirrored horizontally and rotated 90 degrees CW");
   (8, "Rotated 270 degrees CW")].

(** The contract of a mapped-enum resolver [f] reading the tag [key]:
    ["N/A"] without the tag, the label for a listed code, and the word
    [other] for a code the table does not list. *)
Definition resolver_contract (f : gmap string IfdTag -> result string) (key : string)
    (labels : list (Z * string)) (other : string) : Prop :=
  forall tags : gmap string IfdTag,
    (tags !! key = None -> f tags = Ok "N/A") /\
    (forall tag c rest, tags !! key = Some tag -> values tag = Items (Int c :: rest) ->
       f tags = Ok (default other (label_of labels c))).

(** The one code the Noise Reduction resolver names. *)
Definition spec_noise_reduction : list (Z * string) := [(1, "On")].

(** Every resolver of an enumerated tag with the tag it reads, the
    labels of its table and what it answers for a code outside the
    table. *)
Definition resolver_tables
  : list ((gmap string IfdTag -> result string) * string * list (Z * string) * string) :=
  [ (_get_exposure_mode, "EXIF ExposureMode", spec_exposure_mode, "Unknown");
    (_get_white_balance, "EXIF WhiteBalance", spec_white_balance, "Unknown");
    (_get_flash_info, "EXIF Flash", spec_flash, "Unknown");
    (_get_metering_mode, "EXIF MeteringMode", spec_metering_mode, "Unknown");
    (_get_exposure_program, "EXIF ExposureProgram", spec_exposure_program, "Unknown");
    (_get_scene_capture_type, "EXIF SceneCaptureType", spec_scene_capture_type, "Unknown");
    (_get_resolution_unit, "Image ResolutionUnit", spec_resolution_unit, "Unknown");
    (_get_ycbcr_positioning, "Image YCbCrPositioning", spec_ycbcr_positioning, "Unknown");
    (_get_focus_mode, "EXIF FocusMode", spec_focus_mode, "Unknown");
    (_get_shooting_mode, "EXIF ShootingMode", spec_shooting_mode, "Unknown");
    (_get_color_space, "EXIF ColorSpace", spec_color_space, "N/A");
    (_get_orientation, "Image Orientation", spec_orientation, "N/A");
    (_get_noise_reduction, "EXIF NoiseReduction", spec_noise_reduction, "Off") ].

(** A tag holding the given values; [printable] is what exifread would
    print for them. *)
Definition short_tag (c : Z) : IfdTag := mkIfdTag (pretty c) (Items [Int c]).

(** The field [k] of a section that was computed without an exception. *)
Definition field_of (r : result section) (k : string) : option pyval :=
  match r with
  | Ok (Fields d) => dict_get d k
  | _ => None
  end.

(** The field [k] of the section [sec] of a report that was returned. *)
Definition report_field (r : result report) (sec k : string) : option pyval :=
  match r with
  | Ok rep =>
      match dict_get rep sec with
      | Some (Fields d) => dict_get d k
      | _ => None
      end
  | Raise _ => None
  end.

(** The path names a regular file that can be opened for reading. *)
Definition regular_readable (fs : gmap string node) (path : string) : bool :=
  match fs !! path with
  | Some (RegularFile f) => readable f
  | _ => false
  end.

(** The exceptions a computation on tag values can raise. *)
Definition value_error (e : exn) : Prop :=
  e = IndexError \/ e = AttributeError \/ e = ZeroDivisionError \/ e = OverflowError.

Definition only_raises {A : Type} (P : exn -> Prop) (r : result A) : Prop :=
  match r with
  | Ok _ => True
  | Raise e => P e
  end.

(** The report for a tag directory that is empty. *)
Definition report_without_tags (img : PILImage) (file_size : Z) (file_path : string)
  : report :=
  [ ("Image Properties", Fields (image_properties img file_size));
    ("Camera Information",
     Fields [ ("Make", PStr "N/A"); ("Model", PStr "N/A"); ("Software", PStr "N/A");
              ("Lens Model", PStr "N/A"); ("Camera Serial Number", PStr "N/A");
              ("Date of Manufacture", PStr "N/A") ]);
    ("Date and Time",
     Fields [ ("Taken", PStr "N/A"); ("Digitized", PStr "N/A"); ("DateTime", PStr "N/A");
              ("Time Zone Offset", PStr "N/A") ]);
    ("Camera Settings",
     Fields [ ("Exposure Time", PStr "N/A"); ("F-Number", PStr "N/A");
              ("ISO Speed", PStr "N/A"); ("Focal Length", PStr "N/A mm");
              ("Focal Length (35mm equivalent)", PStr "N/A mm");
              ("Exposure Mode", PStr "N/A"); ("White Balance", PStr "N/A");
              ("Flash", PStr "N/A"); ("Metering Mode", PStr "N/A");
              ("Exposure Program", PStr "N/A"); ("Brightness Value", PStr "N/A");
              ("Exposure Bias", PStr "N/A"); ("Max Aperture Value", PStr "N/A");
              ("Digital Zoom Ratio", PStr "N/A"); ("Scene Capture Type", PStr "N/A");
              ("Shutter Speed Value", PStr "N/A"); ("Aperture Value", PStr "N/A");
              ("Color Space", PStr "N/A"); ("Focus Mode", PStr "N/A");
              ("Shooting Mode", PStr "N/A"); ("Noise Reduction", PStr "N/A");
              ("Subject Area", PStr "N/A") ]);
    ("GPS Information", Sentinel "N/A");
    ("Other Details",
     Fields [ ("Orientation", PStr "N/A"); ("YCbCr Positioning", PStr "N/A");
              ("Resolution", PStr "N/A x N/A N/A"); ("Unique Image ID", PStr "N/A");
              ("Exif Version", PStr "N/A"); ("Compression", PStr "N/A");
              ("Image Width", PStr "N/A"); ("Image Length", PStr "N/A");
              ("Subject Distance", PStr "N/A"); ("Metering Mode", PStr "N/A");
              ("File Name", PStr (basename file_path));
              ("File Path", PStr file_path) ]) ].

(** *** Tag directories the assembler can read

    The shapes the field computations index into.  A tag that is absent
    is always fine. *)

(** [values[0]] exists. *)
Definition has_first (v : tag_values) : bool :=
  match v with
  | Items (_ :: _) => true
  | Text (String _ _) => true
  | _ => false
  end.

(** What [_fraction_to_readable] reads: a first value that is a
    [Ratio], or else two values. *)
Definition has_fraction (v : tag_values) : bool :=
  match v with
  | Items (Ratio _ _ :: _) => true
  | Items (Int _ :: _ :: _) => true
  | Text s => match chars s with _ :: _ :: _ => true | _ => false end
  | _ => false
  end.

(** What [_convert_to_degrees] reads: three rationals that pass [ok]. *)
Definition has_triplet (ok : number -> bool) (v : tag_values) : bool :=
  match v with
  | Items (d :: m :: s :: _) => ok d && ok m && ok s
  | _ => false
  end.

Definition has_ratio (ok : number -> bool) (v : tag_values) : bool :=
  match v with
  | Items (a :: _) => ok a
  | _ => false
  end.

Definition tag_ok (shape : tag_values -> bool) (tags : gmap string IfdTag) (key : string)
  : bool :=
  match tags !! key with
  | Some tag => shape (values tag)
  | None => true
  end.

Definition code_tags : list string :=
  [ "EXIF ExposureMode"; "EXIF WhiteBalance"; "EXIF Flash"; "EXIF MeteringMode";
    "EXIF ExposureProgram"; "EXIF SceneCaptureType"; "EXIF ColorSpace"; "EXIF FocusMode";
    "EXIF ShootingMode"; "EXIF NoiseReduction"; "Image Orientation";
    "Image YCbCrPositioning"; "Image ResolutionUnit" ].

Definition fraction_tags : list string :=
  [ "EXIF ExposureTime"; "EXIF FNumber"; "EXIF FocalLength"; "EXIF BrightnessValue";
    "EXIF ExposureBiasValue"; "EXIF MaxApertureValue"; "EXIF DigitalZoomRatio";
    "EXIF ShutterSpeedValue"; "EXIF ApertureValue"; "EXIF SubjectDistance";
    "Image XResolution"; "Image YResolution" ].

Definition position_ok (ok : number -> bool) (tags : gmap string IfdTag) : bool :=
  match tags !! "GPS GPSLatitude", tags !! "GPS GPSLatitudeRef",
        tags !! "GPS GPSLongitude", tags !! "GPS GPSLongitudeRef" with
  | Some lat, Some lat_ref, Some lon, Some lon_ref =>
      has_triplet ok (values lat) && has_first (values lat_ref) &&
      has_triplet ok (values lon) && has_first (values lon_ref)
  | _, _, _, _ => true
  end.

Definition shaped (ok : number -> bool) (tags : gmap string IfdTag) : bool :=
  forallb (tag_ok has_first tags) code_tags &&
  forallb (tag_ok has_fraction tags) fraction_tags &&
  position_ok ok tags &&
  tag_ok (has_ratio ok) tags "GPS GPSAltitude".

(** The shape alone, and the shape with GPS integers in the exact range
    (where every 32-bit EXIF rational lies). *)
Definition well_shaped : gmap string IfdTag -> bool := shaped dividable.
Definition well_formed : gmap string IfdTag -> bool := shaped good_ratio.

(** One of the four tags of a position is missing. *)
Definition position_incomplete (tags : gmap string IfdTag) : Prop :=
  tags !! "GPS GPSLatitude" = None \/ tags !! "GPS GPSLatitudeRef" = None \/
  tags !! "GPS GPSLongitude" = None \/ tags !! "GPS GPSLongitudeRef" = None.

(** The three fields of a position, from the reference letters and the
    signed decimal degrees. *)
Definition position_fields (lat_ref lon_ref : item) (latitude longitude : float)
  : dict pyval :=
  [ ("Latitude",
     PStr (format_f 5 latitude +:+ degree_sign +:+ hemisphere lat_ref "S" "N"));
    ("Longitude",
     PStr (format_f 5 longitude +:+ degree_sign +:+ hemisphere lon_ref "W" "E"));
    ("Google Maps Link",
     PStr ("https://www.google.com/maps?q=" +:+ repr latitude +:+ "," +:+ repr longitude)) ].

Definition altitude_field (altitude : float) : string * pyval :=
  ("Altitude", PStr (format_f 2 altitude +:+ " meters")).

(** Example directories. *)
Definition dms_tag (d m s : Z) : IfdTag :=
  mkIfdTag ("[" +:+ pretty d +:+ ", " +:+ pretty m +:+ ", " +:+ pretty s +:+ "]")
    (Items [Ratio d 1; Ratio m 1; Ratio s 1]).

Definition ref_tag (letter : string) : IfdTag := mkIfdTag letter (Text letter).

Definition gps_new_york : gmap string IfdTag :=
  {[ "GPS GPSLatitude" := dms_tag 40 0 0;
     "GPS GPSLatitudeRef" := ref_tag "N";
     "GPS GPSLongitude" := dms_tag 74 0 0;
     "GPS GPSLongitudeRef" := ref_tag "W" ]}.

Definition gps_sydney : gmap string IfdTag :=
  {[ "GPS GPSLatitude" := dms_tag 33 52 4;
     "GPS GPSLatitudeRef" := ref_tag "S";
     "GPS GPSLongitude" := dms_tag 151 12 26;
     "GPS GPSLongitudeRef" := ref_tag "E";
     "GPS GPSAltitude" := mkIfdTag "58" (Items [Ratio 58 1]) ]}.

(** A position whose seconds were written as 0/0. *)
Definition gps_zero_denominator : gmap string IfdTag :=
  {[ "GPS GPSLatitude" :=
       mkIfdTag "[40, 26, 0/0]" (Items [Ratio 40 1; Ratio 26 1; Ratio 0 0]);
     "GPS GPSLatitudeRef" := ref_tag "N";
     "GPS GPSLongitude" := dms_tag 79 58 56;
     "GPS GPSLongitudeRef" := ref_tag "W" ]}.

(** An exposure time stored as a single integer. *)
Definition integer_exposure_time : gmap string IfdTag :=
  {[ "EXIF ExposureTime" := short_tag 4 ]}.

(** An exposure time that exifread read as a text of one character. *)
Definition text_exposure_time : gmap string IfdTag :=
  {[ "EXIF ExposureTime" := mkIfdTag "é" (Text "é") ]}.

Definition altitude_only : gmap string IfdTag :=
  {[ "GPS GPSAltitude" := mkIfdTag "100" (Items [Ratio 100 1]) ]}.

(** Example files. *)
Definition png_image : PILImage :=
  mkImage (PStr "PNG") (640, 480) "RGB" ∅.

Definition jpeg_image : PILImage :=
  mkImage (PStr "JPEG") (4032, 3024) "RGB" {[ "dpi" := PPair (PInt 72) (PInt 72) ]}.

Definition plain_png : gmap string node :=
  {[ "shots/plain.png" := RegularFile (mkFile true 2048 (Some png_image) ∅) ]}.

Definition locked_jpg : gmap string node :=
  {[ "locked.jpg" := RegularFile (mkFile false 4096 (Some jpeg_image) ∅) ]}.

Definition sydney_jpg : gmap string node :=
  {[ "sydney.jpg" := RegularFile (mkFile true 123456 (Some jpeg_image) gps_sydney) ]}.

(** A file in a directory the process may not search. *)
Definition sealed_jpg : gmap string node :=
  {[ "vault/sealed.jpg" :=
       Unsearchable (mkFile true 4096 (Some jpeg_image) ∅) ]}.

(** A process that holds one file open and may hold sixteen; the same
    process with a log file added to the file system and opened; and a
    process that has used up its descriptors. *)
Definition sydney_process : world := mkWorld sydney_jpg ["notes.txt"] 16.

Definition sydney_process_later : world :=
  mkWorld (<[ "run.log" := RegularFile (mkFile true 0 None ∅) ]> sydney_jpg)
    ["run.log"; "notes.txt"] 16.

Definition exhausted_process : world := mkWorld ∅ ["a"; "b"] 2.

(** *** Vocabulary of the further properties *)

(** The keys of the section [sec] of a report, in order. *)
Definition keys_of (r : report) (sec : string) : option (list string) :=
  match dict_get r sec with
  | Some (Fields d) => Some (map fst d)
  | _ => None
  end.

Definition is_str (v : pyval) : Prop := exists s, v = PStr s.

Definition image_properties_keys : list string :=
  [ "Format"; "Size"; "Color Mode"; "File Size"; "DPI"; "Duration" ].

Definition camera_information_keys : list string :=
  [ "Make"; "Model"; "Software"; "Lens Model"; "Camera Serial Number";
    "Date of Manufacture" ].

Definition date_and_time_keys : list string :=
  [ "Taken"; "Digitized"; "DateTime"; "Time Zone Offset" ].

Definition camera_settings_keys : list string :=
  [ "Exposure Time"; "F-Number"; "ISO Speed"; "Focal Length";
    "Focal Length (35mm equivalent)"; "Exposure Mode"; "White Balance"; "Flash";
    "Metering Mode"; "Exposure Program"; "Brightness Value"; "Exposure Bias";
    "Max Aperture Value"; "Digital Zoom Ratio"; "Scene Capture Type";
    "Shutter Speed Value"; "Aperture Value"; "Color Space"; "Focus Mode";
    "Shooting Mode"; "Noise Reduction"; "Subject Area" ].

Definition other_details_keys : list string :=
  [ "Orientation"; "YCbCr Positioning"; "Resolution"; "Unique Image ID"; "Exif Version";
    "Compression"; "Image Width"; "Image Length"; "Subject Distance"; "Metering Mode";
    "File Name"; "File Path" ].

(** The four position tags are all present. *)
Definition position_present (tags : gmap string IfdTag) : bool :=
  match tags !! "GPS GPSLatitude", tags !! "GPS GPSLatitudeRef",
        tags !! "GPS GPSLongitude", tags !! "GPS GPSLongitudeRef" with
  | Some _, Some _, Some _, Some _ => true
  | _, _, _, _ => false
  end.

(** The keys the GPS section has for a tag directory. *)
Definition gps_keys (tags : gmap string IfdTag) : list string :=
  List.app
    (if position_present tags then ["Latitude"; "Longitude"; "Google Maps Link"] else [])
    (match tags !! "GPS GPSAltitude" with Some _ => ["Altitude"] | None => [] end).

(** Every resolver of an enumerated tag, with the tag it reads. *)
Definition enum_resolvers : list ((gmap string IfdTag -> result string) * string) :=
  [ (_get_exposure_mode, "EXIF ExposureMode");
    (_get_white_balance, "EXIF WhiteBalance");
    (_get_flash_info, "EXIF Flash");
    (_get_metering_mode, "EXIF MeteringMode");
    (_get_exposure_program, "EXIF ExposureProgram");
    (_get_scene_capture_type, "EXIF SceneCaptureType");
    (_get_color_space, "EXIF ColorSpace");
    (_get_resolution_unit, "Image ResolutionUnit");
    (_get_ycbcr_positioning, "Image YCbCrPositioning");
    (_get_focus_mode, "EXIF FocusMode");
    (_get_shooting_mode, "EXIF ShootingMode");
    (_get_noise_reduction, "EXIF NoiseReduction");
    (_get_orientation, "Image Orientation") ].

(** Every resolver with all the strings it can return. *)
Definition resolver_ranges : list ((gmap string IfdTag -> result string) * list string) :=
  [ (_get_exposure_mode, "N/A" :: "Unknown" :: map snd spec_exposure_mode);
    (_get_white_balance, "N/A" :: "Unknown" :: map snd spec_white_balance);
    (_get_flash_info, "N/A" :: "Unknown" :: map snd spec_flash);
    (_get_metering_mode, "N/A" :: "Unknown" :: map snd spec_metering_mode);
    (_get_exposure_program, "N/A" :: "Unknown" :: map snd spec_exposure_program);
    (_get_scene_capture_type, "N/A" :: "Unknown" :: map snd spec_scene_capture_type);
    (_get_resolution_unit, "N/A" :: "Unknown" :: map snd spec_resolution_unit);
    (_get_ycbcr_positioning, "N/A" :: "Unknown" :: map snd spec_ycbcr_positioning);
    (_get_focus_mode, "N/A" :: "Unknown" :: map snd spec_focus_mode);
    (_get_shooting_mode, "N/A" :: "Unknown" :: map snd spec_shooting_mode);
    (_get_color_space, "N/A" :: map snd spec_color_space);
    (_get_orientation, "N/A" :: map snd spec_orientation);
    (_get_noise_reduction, ["N/A"; "On"; "Off"]) ].

(** What each resolver answers for a present tag whose first value is
    not a number equal to an integer (a character of a text value, or a
    rational that is not a whole number). *)
Definition resolver_fallbacks : list ((gmap string IfdTag -> result string) * string * string) :=
  [ (_get_exposure_mode, "EXIF ExposureMode", "Unknown");
    (_get_white_balance, "EXIF WhiteBalance", "Unknown");
    (_get_flash_info, "EXIF Flash", "Unknown");
    (_get_metering_mode, "EXIF MeteringMode", "Unknown");
    (_get_exposure_program, "EXIF ExposureProgram", "Unknown");
    (_get_scene_capture_type, "EXIF SceneCaptureType", "Unknown");
    (_get_resolution_unit, "Image ResolutionUnit", "Unknown");
    (_get_ycbcr_positioning, "Image YCbCrPositioning", "Unknown");
    (_get_focus_mode, "EXIF FocusMode", "Unknown");
    (_get_shooting_mode, "EXIF ShootingMode", "Unknown");
    (_get_color_space, "EXIF ColorSpace", "N/A");
    (_get_orientation, "Image Orientation", "N/A");
    (_get_noise_reduction, "EXIF NoiseReduction", "Off") ].

(** The integers of a number are in the exact range. *)
Definition in_range (x : number) : bool :=
  match x with
  | Int n => exact_int n
  | Ratio n d => exact_int n && exact_int d
  end.

(** The exception one component of a triplet causes, if any: a missing
    value, a value without [num] and [den], or a zero denominator. *)
Definition component_error (x : option number) : option exn :=
  match x with
  | None => Some IndexError
  | Some (Int _) => Some AttributeError
  | Some (Ratio _ d) => if d =? 0 then Some ZeroDivisionError else None
  end.

(** The first exception among the three components. *)
Definition triplet_error (l : list number) : option exn :=
  match component_error (l !! 0%nat) with
  | Some e => Some e
  | None =>
      match component_error (l !! 1%nat) with
      | Some e => Some e
      | None => component_error (l !! 2%nat)
      end
  end.

(** Every tag name the assembler looks up. *)
Definition used_tags : list string :=
  [ "Image Make"; "Image Model"; "Image Software"; "EXIF LensModel";
    "EXIF CameraSerialNumber"; "EXIF DateTimeOriginal"; "EXIF DateTimeDigitized";
    "EXIF DateTime"; "EXIF OffsetTimeOriginal"; "EXIF ExposureTime"; "EXIF FNumber";
    "EXIF ISOSpeedRatings"; "EXIF FocalLength"; "EXIF FocalLengthIn35mmFilm";
    "EXIF ExposureMode"; "EXIF WhiteBalance"; "EXIF Flash"; "EXIF MeteringMode";
    "EXIF ExposureProgram"; "EXIF BrightnessValue"; "EXIF ExposureBiasValue";
    "EXIF MaxApertureValue"; "EXIF DigitalZoomRatio"; "EXIF SceneCaptureType";
    "EXIF ShutterSpeedValue"; "EXIF ApertureValue"; "EXIF ColorSpace"; "EXIF FocusMode";
    "EXIF ShootingMode"; "EXIF NoiseReduction"; "EXIF SubjectArea"; "GPS GPSLatitude";
    "GPS GPSLatitudeRef"; "GPS GPSLongitude"; "GPS GPSLongitudeRef"; "GPS GPSAltitude";
    "Image Orientation"; "Image YCbCrPositioning"; "Image XResolution";
    "Image YResolution"; "Image ResolutionUnit"; "EXIF ImageUniqueID";
    "EXIF ExifVersion"; "EXIF Compression"; "EXIF ExifImageWidth";
    "EXIF ExifImageLength"; "EXIF SubjectDistance" ].

(** A string has no slash. *)
Definition no_slash (s : string) : bool :=
  negb (existsb (Ascii.eqb "/") (list_ascii_of_string s)).

(** The text of a [print] call is a header when it starts with the
    newline that [print_clean_image_info] puts before each category. *)
Definition is_header (text : string) : bool :=
  match text with
  | String c _ => Ascii.eqb c "010"
  | EmptyString => false
  end.

Definition is_indented (text : string) : bool :=
  match text with
  | String " " (String " " _) => true
  | _ => false
  end.

(** A sign bit that is clear, on a float that is a number. *)
Definition nonnegative (x : float) : bool :=
  match x with
  | S754_zero s | S754_infinity s | S754_finite s _ _ => negb s
  | S754_nan => false
  end.

(** A sign bit that is set. *)
Definition negative (x : float) : bool :=
  match x with
  | S754_zero s | S754_infinity s | S754_finite s _ _ => s
  | S754_nan => false
  end.

(** A rational whose numerator is not negative and whose denominator is
    positive, both in the exact range. *)
Definition nonnegative_ratio (x : number) : bool :=
  match x with
  | Ratio n d => (0 <=? n) && (0 <? d) && exact_int n && exact_int d
  | Int _ => false
  end.

(** * Properties *)

(** ** Integers that convert to floats exactly *)

Lemma digits2_pos_iter_xO (p k : positive) :
  digits2_pos (Pos.iter xO p k) = (digits2_pos p + k)%positive.
Proof.
  induction k as [|k IH] using Pos.peano_ind.
  - simpl. lia.
  - rewrite Pos.iter_succ. simpl. rewrite IH. lia.
Qed.

Lemma digits2_pos_le_53 (p : positive) :
  Zpos p < 2 ^ 53 -> Zpos (digits2_pos p) <= 53.
Proof.
  intros Hp.
  assert (Hlow : forall q, 2 ^ (Zpos (digits2_pos q) - 1) <= Zpos q).
  { induction q as [q IH|q IH|]; simpl digits2_pos.
    - rewrite Pos2Z.inj_succ. replace (Z.succ (Zpos (digits2_pos q)) - 1)
        with (Z.succ (Zpos (digits2_pos q) - 1)) by lia.
      rewrite Z.pow_succ_r by lia. lia.
    - rewrite Pos2Z.inj_succ. replace (Z.succ (Zpos (digits2_pos q)) - 1)
        with (Z.succ (Zpos (digits2_pos q) - 1)) by lia.
      rewrite Z.pow_succ_r by lia. lia.
    - reflexivity. }
  destruct (Z.le_gt_cases (Zpos (digits2_pos p)) 53) as [|Hgt]; [assumption|].
  exfalso. specialize (Hlow p).
  assert (2 ^ 53 <= 2 ^ (Zpos (digits2_pos p) - 1)) by (apply Z.pow_le_mono_r; lia).
  lia.
Qed.

Lemma Zpos_iter_xO (p k : positive) :
  Zpos (Pos.iter xO p k) = Zpos p * 2 ^ Zpos k.
Proof.
  induction k as [|k IH] using Pos.peano_ind.
  - simpl. lia.
  - rewrite Pos.iter_succ, Pos2Z.inj_succ, Z.pow_succ_r by lia.
    rewrite Pos2Z.inj_xO, IH. lia.
Qed.

(** An integer of at most 53 bits is its own rounding: the mantissa is
    the integer shifted left to 53 bits. *)
Lemma binary_round_53 (s : bool) (p : positive) :
  Zpos p < 2 ^ 53 ->
  exists m e, binary_round prec emax s p 0 = S754_finite s m e /\
              e <= 0 /\ Zpos m = Zpos p * 2 ^ (- e).
Proof.
  intros Hp. apply digits2_pos_le_53 in Hp.
  unfold binary_round, prec, emax.
  set (d := digits2_pos p) in *.
  assert (Hfexp : fexp 53 1024 (Zpos d + 0) = Zpos d - 53).
  { unfold fexp, emin. lia. }
  rewrite Hfexp.
  assert (Hal : exists mz, shl_align p 0 (Zpos d - 53) = (mz, Zpos d - 53)
                           /\ digits2_pos mz = 53%positive
                           /\ Zpos mz = Zpos p * 2 ^ (- (Zpos d - 53))).
  { unfold shl_align. destruct (Zpos d - 53 - 0) as [|k|k] eqn:Hk; try lia.
    - exists p. split; [f_equal; lia|]. split; [fold d; lia|].
      replace (- (Zpos d - 53)) with 0 by lia. lia.
    - exists (Pos.iter xO p k). split; [reflexivity|]. split.
      + rewrite digits2_pos_iter_xO. fold d. lia.
      + rewrite Zpos_iter_xO. do 2 f_equal. lia. }
  destruct Hal as (mz & -> & Hmz & Hval).
  exists mz, (Zpos d - 53).
  split; [|split; [lia | exact Hval]].
  unfold binary_round_aux, shr_fexp. simpl Zdigits2. rewrite Hmz.
  assert (Hf : fexp 53 1024 (53 + (Zpos d - 53)) - (Zpos d - 53) = 0).
  { unfold fexp, emin. lia. }
  rewrite Hf. simpl. rewrite Hmz, Hf. simpl.
  destruct (Z.leb_spec (Zpos d - 53) (1024 - 53)); [reflexivity | lia].
Qed.

(** [float(n)] is exactly [n] when [n] has at most 53 bits. *)
Lemma to_float_exact (n : Z) :
  exact_int n = true -> n <> 0 ->
  exists m e, to_float n = S754_finite (n <? 0) m e /\
              e <= 0 /\ Zpos m = Z.abs n * 2 ^ (- e).
Proof.
  unfold exact_int, to_float. intros Hb Hn. apply Z.ltb_lt in Hb.
  destruct n as [|p|p]; [congruence| |]; simpl binary_normalize.
  - apply binary_round_53. lia.
  - apply binary_round_53. lia.
Qed.

Lemma of_int_exact (n : Z) :
  exact_int n = true -> of_int n = Ok (to_float n).
Proof.
  intros Hb. unfold of_int. fold (to_float n).
  destruct (Z.eq_dec n 0) as [->|Hn]; [reflexivity|].
  destruct (to_float_exact n Hb Hn) as (m & e & -> & _). reflexivity.
Qed.

Lemma to_float_nonzero (n : Z) :
  exact_int n = true -> n <> 0 -> is_zero (to_float n) = false.
Proof.
  intros Hb Hn. destruct (to_float_exact n Hb Hn) as (m & e & -> & _). reflexivity.
Qed.

(** The float literals of the source are the floats of their integers. *)
Lemma source_literals :
  of_int 60 = Ok lit_60 /\ of_int 3600 = Ok lit_3600 /\ of_int (-1) = Ok lit_neg_1.
Proof. repeat split. Qed.

(** Multiplying a valid float by [-1.0] flips its sign and nothing else. *)
Lemma shr_52 (m : positive) :
  SpecFloat.iter_pos shr_1 52 (shr_record_of_loc (Zpos (Pos.iter xO m 52)) loc_Exact) =
  Build_shr_record (Zpos m) false false.
Proof. reflexivity. Qed.

Lemma mul_neg_1_opp (x : float) :
  valid_binary prec emax x = true -> mul x lit_neg_1 = SFopp x.
Proof.
  intros H. destruct x as [[]|[]| |s m e]; try reflexivity.
  simpl in H. unfold bounded, canonical_mantissa in H.
  apply andb_true_iff in H as [Hc Hb]. apply Z.eqb_eq in Hc.
  unfold mul, lit_neg_1, SFmul.
  replace (Pos.mul m 4503599627370496) with (Pos.iter xO m 52)
    by (rewrite Pos.mul_comm; reflexivity).
  unfold binary_round_aux, shr_fexp.
  change (Zdigits2 (Zpos (Pos.iter xO m 52))) with (Zpos (digits2_pos (Pos.iter xO m 52))).
  rewrite digits2_pos_iter_xO.
  replace (Zpos (digits2_pos m + 52) + (e + -52)) with (Zpos (digits2_pos m) + e) by lia.
  rewrite Hc.
  replace (e - (e + -52)) with 52 by lia.
  unfold shr. rewrite shr_52. simpl shr_m. simpl loc_of_shr_record.
  unfold round_nearest_even. simpl Zdigits2.
  replace (e + -52 + 52) with e by lia. rewrite Hc, Z.sub_diag. simpl.
  rewrite Hb. destruct s; reflexivity.
Qed.

(** ** The error monad *)

Lemma bind_Ok {A B : Type} (r : result A) (k : A -> result B) (b : B) :
  Py.bind r k = Ok b <-> exists a, r = Ok a /\ k a = Ok b.
Proof.
  destruct r as [a|e]; simpl.
  - split; [eauto | intros (a' & [= <-] & H); exact H].
  - split; [discriminate | intros (a' & Ha & _); discriminate Ha].
Qed.

Lemma returns_Ok {A : Type} (r : result A) :
  returns r <-> exists a, r = Ok a.
Proof.
  destruct r as [a|e]; simpl; split; eauto; try tauto.
  intros [a' Ha]. discriminate Ha.
Qed.

(** ** The enum resolvers *)

Lemma lookup_labels (labels : list (Z * string)) (c : Z) :
  (list_to_map labels : gmap Z string) !! c = label_of labels c.
Proof.
  unfold label_of. induction labels as [|[k l] labels IH]; simpl.
  - apply lookup_empty.
  - destruct (Z.eqb_spec k c) as [->|Hne].
    + apply lookup_insert_eq.
    + rewrite lookup_insert_ne by exact Hne. exact IH.
Qed.

Lemma resolve_contract (table : gmap Z string) (key : string) (labels : list (Z * string)) :
  table = list_to_map labels ->
  resolver_contract (resolve table key) key labels "Unknown".
Proof.
  intros -> tags. unfold resolve. split.
  - intros ->. reflexivity.
  - intros tag c rest -> ->. simpl. unfold table_get. simpl.
    now rewrite lookup_labels.
Qed.

Lemma exposure_mode_contract :
  resolver_contract _get_exposure_mode "EXIF ExposureMode" spec_exposure_mode "Unknown".
Proof. now apply resolve_contract. Qed.

Lemma white_balance_contract :
  resolver_contract _get_white_balance "EXIF WhiteBalance" spec_white_balance "Unknown".
Proof. now apply resolve_contract. Qed.

Lemma metering_mode_contract :
  resolver_contract _get_metering_mode "EXIF MeteringMode" spec_metering_mode "Unknown".
Proof. now apply resolve_contract. Qed.

Lemma exposure_program_contract :
  resolver_contract _get_exposure_program "EXIF ExposureProgram" spec_exposure_program
    "Unknown".
Proof. now apply resolve_contract. Qed.

Lemma scene_capture_type_contract :
  resolver_contract _get_scene_capture_type "EXIF SceneCaptureType"
    spec_scene_capture_type "Unknown".
Proof. now apply resolve_contract. Qed.

Lemma resolution_unit_contract :
  resolver_contract _get_resolution_unit "Image ResolutionUnit" spec_resolution_unit
    "Unknown".
Proof. now apply resolve_contract. Qed.

Lemma ycbcr_positioning_contract :
  resolver_contract _get_ycbcr_positioning "Image YCbCrPositioning"
    spec_ycbcr_positioning "Unknown".
Proof. now apply resolve_contract. Qed.

Lemma focus_mode_contract :
  resolver_contract _get_focus_mode "EXIF FocusMode" spec_focus_mode "Unknown".
Proof. now apply resolve_contract. Qed.

Lemma shooting_mode_contract :
  resolver_contract _get_shooting_mode "EXIF ShootingMode" spec_shooting_mode "Unknown".
Proof. now apply resolve_contract. Qed.

Lemma flash_contract :
  resolver_contract _get_flash_info "EXIF Flash" spec_flash "Unknown".
Proof.
  intros tags. unfold _get_flash_info. split.
  - intros ->. reflexivity.
  - intros tag c rest -> ->. simpl. unfold eq_int, label_of.
    destruct c as [|[p|p|]|p]; reflexivity.
Qed.

(** The two resolvers written with [isinstance] answer ["N/A"], not
    ["Unknown"], for a code outside their table. *)
Lemma orientation_contract :
  resolver_contract _get_orientation "Image Orientation" spec_orientation "N/A".
Proof.
  intros tags. unfold _get_orientation. split.
  - intros ->. reflexivity.
  - intros tag c rest -> ->. simpl. unfold table_get. simpl.
    change orientations with (list_to_map spec_orientation : gmap Z string).
    now rewrite lookup_labels.
Qed.

Lemma color_space_contract :
  resolver_contract _get_color_space "EXIF ColorSpace" spec_color_space "N/A".
Proof.
  intros tags. unfold _get_color_space. split.
  - intros ->. reflexivity.
  - intros tag c rest -> ->. simpl. unfold table_get. simpl.
    change color_spaces with (list_to_map spec_color_space : gmap Z string).
    now rewrite lookup_labels.
Qed.

Lemma orientation_not_unknown :
  ~ resolver_contract _get_orientation "Image Orientation" spec_orientation "Unknown".
Proof.
  intros H.
  destruct (H {[ "Image Orientation" := short_tag 9 ]}) as [_ H9].
  specialize (H9 (short_tag 9) 9 [] (lookup_singleton_eq _ _) eq_refl).
  vm_compute in H9. discriminate H9.
Qed.

Lemma color_space_not_unknown :
  ~ resolver_contract _get_color_space "EXIF ColorSpace" spec_color_space "Unknown".
Proof.
  intros H.
  destruct (H {[ "EXIF ColorSpace" := short_tag 65535 ]}) as [_ H9].
  specialize (H9 (short_tag 65535) 65535 [] (lookup_singleton_eq _ _) eq_refl).
  vm_compute in H9. discriminate H9.
Qed.

(** C1: the twelve mapped-enum resolvers are to answer "N/A" for a
    missing tag, "Unknown" for a code outside their table and the listed
    label otherwise.  Ten of them do.  The colour space and orientation
    resolvers answer "N/A" for a code outside their table: colour space
    65535 (uncalibrated) and orientation 9 are reported as if the tag
    were missing, while an exposure mode of 9 is reported as "Unknown". *)
Theorem unmapped_color_space_and_orientation :
  _get_color_space {[ "EXIF ColorSpace" := short_tag 65535 ]} = Ok "N/A" /\
  _get_orientation {[ "Image Orientation" := short_tag 9 ]} = Ok "N/A" /\
  _get_exposure_mode {[ "EXIF ExposureMode" := short_tag 9 ]} = Ok "Unknown".
Proof. repeat split; vm_compute; reflexivity. Qed.

(** ** The Rational formatter *)

(** C4, as the specification states it, fails: a value with a zero
    denominator is not treated as absent.  The formatter prints it. *)
Lemma zero_denominator_is_not_absent :
  _fraction_to_readable (Some (mkIfdTag "5/0" (Items [Ratio 5 0]))) "N/A" = Ok "5/0" /\
  _fraction_to_readable (Some (mkIfdTag "5/0" (Items [Ratio 5 0]))) "N/A" <> Ok "N/A".
Proof. split; [vm_compute; reflexivity | vm_compute; discriminate]. Qed.

(** C4, amended: the Rational formatter returns the caller's default
    when the value is absent; a value whose first rational has a zero
    denominator is printed as numerator, slash, zero, whatever the
    default is; the formatter raises in neither case. *)
Theorem fraction_to_readable_absent_or_zero_denominator :
  (forall default_value : string,
     _fraction_to_readable None default_value = Ok default_value) /\
  (forall (tag : IfdTag) (n : Z) (rest : list number) (default_value : string),
     values tag = Items (Ratio n 0 :: rest) ->
     _fraction_to_readable (Some tag) default_value = Ok (pretty n +:+ "/0")).
Proof.
  split.
  - reflexivity.
  - intros tag n rest default_value Hv. unfold _fraction_to_readable.
    rewrite Hv. reflexivity.
Qed.

Lemma fraction_to_readable_zero_denominator_witness :
  _fraction_to_readable (Some (mkIfdTag "7/0" (Items [Ratio 7 0]))) "N/A" = Ok "7/0".
Proof.
  exact (proj2 fraction_to_readable_absent_or_zero_denominator
           (mkIfdTag "7/0" (Items [Ratio 7 0])) 7 [] "N/A" eq_refl).
Defined.

(** What the formatter prints for a present value in general. *)
Lemma fraction_to_readable_ratio (tag : IfdTag) (n d : Z) (rest : list number)
    (default_value : string) :
  values tag = Items (Ratio n d :: rest) ->
  _fraction_to_readable (Some tag) default_value = Ok (str_number (Ratio n d)).
Proof. intros Hv. unfold _fraction_to_readable. rewrite Hv. reflexivity. Qed.

(** ** Noise reduction *)

(** C7: the Noise Reduction resolver returns "N/A" when the tag is
    absent, "On" when the first value of the tag is the code 1 and "Off"
    for any other code; it never returns "Unknown". *)
Theorem noise_reduction_resolver (tags : gmap string IfdTag) :
  (tags !! "EXIF NoiseReduction" = None -> _get_noise_reduction tags = Ok "N/A") /\
  (forall (tag : IfdTag) (c : Z) (rest : list number),
     tags !! "EXIF NoiseReduction" = Some tag ->
     values tag = Items (Int c :: rest) ->
     _get_noise_reduction tags = Ok (if c =? 1 then "On" else "Off")) /\
  _get_noise_reduction tags <> Ok "Unknown".
Proof.
  unfold _get_noise_reduction. repeat split.
  - intros ->. reflexivity.
  - intros tag c rest -> ->. reflexivity.
  - destruct (tags !! "EXIF NoiseReduction") as [tag|]; [|discriminate].
    destruct (index (values tag) 0) as [code|e]; simpl; [|discriminate].
    destruct (eq_int code 1); discriminate.
Qed.

Lemma noise_reduction_resolver_witness :
  _get_noise_reduction {[ "EXIF NoiseReduction" := short_tag 1 ]} = Ok "On" /\
  _get_noise_reduction {[ "EXIF NoiseReduction" := short_tag 2 ]} = Ok "Off" /\
  _get_noise_reduction ∅ = Ok "N/A".
Proof.
  split; [|split].
  - exact (proj1 (proj2 (noise_reduction_resolver _)) (short_tag 1) 1 []
             (lookup_singleton_eq _ _) eq_refl).
  - exact (proj1 (proj2 (noise_reduction_resolver _)) (short_tag 2) 2 []
             (lookup_singleton_eq _ _) eq_refl).
  - exact (proj1 (noise_reduction_resolver ∅) (lookup_empty _)).
Defined.

(** ** The GPS converter *)

Lemma num_over_den_good (l : list number) (i : nat) (x : number) :
  l !! i = Some x -> good_ratio x = true ->
  num_over_den (Items l) i = Ok (quotient x).
Proof.
  intros Hl Hx. destruct x as [n|n d]; [discriminate|].
  simpl in Hx. apply andb_true_iff in Hx as [Hx Hd]. apply andb_true_iff in Hx as [Hn Hd'].
  apply negb_true_iff, Z.eqb_neq in Hd.
  unfold num_over_den. simpl. rewrite Hl. simpl.
  rewrite (of_int_exact n Hn). simpl. rewrite (of_int_exact d Hd'). simpl.
  unfold truediv. now rewrite (to_float_nonzero d Hd' Hd).
Qed.

Lemma convert_to_degrees_good (value : IfdTag) (d m s : number) (rest : list number) :
  values value = Items (d :: m :: s :: rest) ->
  good_ratio d = true -> good_ratio m = true -> good_ratio s = true ->
  _convert_to_degrees value = Ok (decimal_degrees (quotient d) (quotient m) (quotient s)).
Proof.
  intros Hv Hd Hm Hs. unfold _convert_to_degrees. rewrite Hv.
  rewrite (num_over_den_good (d :: m :: s :: rest) 0 d eq_refl Hd). simpl.
  rewrite (num_over_den_good (d :: m :: s :: rest) 1 m eq_refl Hm). simpl.
  rewrite (num_over_den_good (d :: m :: s :: rest) 2 s eq_refl Hs). reflexivity.
Qed.

(** C2, as the specification states it, fails: with no position at all
    and an Altitude tag, the section is the mapping holding the
    altitude, not the sentinel. *)
Lemma altitude_alone_is_reported :
  altitude_only !! "GPS GPSLatitude" = None /\
  _extract_gps_info altitude_only = Ok (Fields [("Altitude", PStr "100.00 meters")]) /\
  _extract_gps_info altitude_only <> Ok (Sentinel "N/A").
Proof.
  split; [reflexivity|].
  split; [vm_compute; reflexivity | vm_compute; discriminate].
Qed.

(** C2, amended: when one of the four fields latitude, latitude
    reference, longitude, longitude reference is missing, the GPS
    section is the sentinel "N/A" provided the Altitude tag is missing
    too; with an Altitude tag whose first value is a rational with a
    non-zero denominator the section is the mapping whose only field is
    Altitude, with two decimals and the unit meters. *)
Theorem gps_incomplete_position (tags : gmap string IfdTag) :
  position_incomplete tags ->
  (tags !! "GPS GPSAltitude" = None -> _extract_gps_info tags = Ok (Sentinel "N/A")) /\
  (forall (alt : IfdTag) (a : number) (rest : list number),
     tags !! "GPS GPSAltitude" = Some alt ->
     values alt = Items (a :: rest) -> good_ratio a = true ->
     _extract_gps_info tags = Ok (Fields [altitude_field (quotient a)])).
Proof.
  intros Hmiss. unfold _extract_gps_info.
  assert (Hpos :
    match tags !! "GPS GPSLatitude", tags !! "GPS GPSLatitudeRef",
          tags !! "GPS GPSLongitude", tags !! "GPS GPSLongitudeRef" with
    | Some _, Some _, Some _, Some _ => False
    | _, _, _, _ => True
    end).
  { destruct Hmiss as [-> | [-> | [-> | ->]]];
      repeat match goal with |- context [match ?o with _ => _ end] => destruct o end;
      exact I. }
  destruct (tags !! "GPS GPSLatitude"), (tags !! "GPS GPSLatitudeRef"),
           (tags !! "GPS GPSLongitude"), (tags !! "GPS GPSLongitudeRef");
    try contradiction; simpl;
    (split;
     [ intros ->; reflexivity
     | intros alt a rest -> Hv Ha; rewrite Hv;
       rewrite (num_over_den_good (a :: rest) 0 a eq_refl Ha); reflexivity ]).
Qed.

Lemma gps_incomplete_position_witness :
  _extract_gps_info altitude_only = Ok (Fields [("Altitude", PStr "100.00 meters")]) /\
  _extract_gps_info ∅ = Ok (Sentinel "N/A").
Proof.
  split.
  - exact (proj2 (gps_incomplete_position altitude_only (or_introl eq_refl))
             (mkIfdTag "100" (Items [Ratio 100 1])) (Ratio 100 1) [] eq_refl eq_refl eq_refl).
  - exact (proj1 (gps_incomplete_position ∅ (or_introl eq_refl)) eq_refl).
Defined.

(** The position block of [_extract_gps_info] on four well-formed tags. *)
Lemma gps_position_fields (tags : gmap string IfdTag) (lat lat_ref lon lon_ref : IfdTag)
    (d1 m1 s1 d2 m2 s2 : number) (rest1 rest2 : list number) (r1 r2 : item) :
  tags !! "GPS GPSLatitude" = Some lat ->
  tags !! "GPS GPSLatitudeRef" = Some lat_ref ->
  tags !! "GPS GPSLongitude" = Some lon ->
  tags !! "GPS GPSLongitudeRef" = Some lon_ref ->
  values lat = Items (d1 :: m1 :: s1 :: rest1) ->
  good_ratio d1 = true -> good_ratio m1 = true -> good_ratio s1 = true ->
  values lon = Items (d2 :: m2 :: s2 :: rest2) ->
  good_ratio d2 = true -> good_ratio m2 = true -> good_ratio s2 = true ->
  index (values lat_ref) 0 = Ok r1 ->
  index (values lon_ref) 0 = Ok r2 ->
  let latitude :=
    signed_by r1 "S" (decimal_degrees (quotient d1) (quotient m1) (quotient s1)) in
  let longitude :=
    signed_by r2 "W" (decimal_degrees (quotient d2) (quotient m2) (quotient s2)) in
  _extract_gps_info tags =
    match tags !! "GPS GPSAltitude" with
    | None => Ok (Fields (position_fields r1 r2 latitude longitude))
    | Some alt =>
        let* altitude := num_over_den (values alt) 0 in
        Ok (Fields (List.app (position_fields r1 r2 latitude longitude)
                             [altitude_field altitude]))
    end.
Proof.
  intros Hlat Hlat_ref Hlon Hlon_ref Hv1 Hd1 Hm1 Hs1 Hv2 Hd2 Hm2 Hs2 Hr1 Hr2.
  unfold _extract_gps_info. rewrite Hlat, Hlat_ref, Hlon, Hlon_ref.
  rewrite (convert_to_degrees_good lat d1 m1 s1 rest1 Hv1 Hd1 Hm1 Hs1).
  rewrite (convert_to_degrees_good lon d2 m2 s2 rest2 Hv2 Hd2 Hm2 Hs2).
  simpl. rewrite Hr1, Hr2. simpl.
  destruct (tags !! "GPS GPSAltitude") as [alt|]; simpl.
  - destruct (num_over_den (values alt) 0); reflexivity.
  - reflexivity.
Qed.

(** C3, as the specification states it, fails on its own example: the
    Longitude field prints the signed number, so west of Greenwich it
    reads "-74.00000° W" and not "74.00000° W". *)
Lemma longitude_text_keeps_the_sign :
  field_of (_extract_gps_info gps_new_york) "Latitude" = Some (PStr "40.00000° N") /\
  field_of (_extract_gps_info gps_new_york) "Longitude" = Some (PStr "-74.00000° W") /\
  field_of (_extract_gps_info gps_new_york) "Longitude" <> Some (PStr "74.00000° W").
Proof.
  repeat split; try (vm_compute; reflexivity). vm_compute. discriminate.
Qed.

(** C3, amended: for latitude (40,0,0) with reference N and longitude
    (74,0,0) with reference W the GPS converter produces Latitude
    "40.00000° N", Longitude "-74.00000° W" (the text carries the sign of
    the signed decimal -74.0) and the map link
    "https://www.google.com/maps?q=40.0,-74.0".  In general each triplet
    combines as degrees + minutes/60 + seconds/3600 on floats, the
    reference S multiplies the latitude by -1, the reference W
    multiplies the longitude by -1 (on a valid float this is the change
    of sign), and any other reference leaves the number as it is; the
    two texts have five decimals and the link prints the two signed
    numbers. *)
Theorem gps_conversion :
  _extract_gps_info gps_new_york =
    Ok (Fields [ ("Latitude", PStr "40.00000° N");
                 ("Longitude", PStr "-74.00000° W");
                 ("Google Maps Link", PStr "https://www.google.com/maps?q=40.0,-74.0") ]) /\
  (forall (tags : gmap string IfdTag) (lat lat_ref lon lon_ref : IfdTag)
          (d1 m1 s1 d2 m2 s2 : number) (rest1 rest2 : list number) (r1 r2 : item),
     tags !! "GPS GPSLatitude" = Some lat ->
     tags !! "GPS GPSLatitudeRef" = Some lat_ref ->
     tags !! "GPS GPSLongitude" = Some lon ->
     tags !! "GPS GPSLongitudeRef" = Some lon_ref ->
     values lat = Items (d1 :: m1 :: s1 :: rest1) ->
     good_ratio d1 = true -> good_ratio m1 = true -> good_ratio s1 = true ->
     values lon = Items (d2 :: m2 :: s2 :: rest2) ->
     good_ratio d2 = true -> good_ratio m2 = true -> good_ratio s2 = true ->
     index (values lat_ref) 0 = Ok r1 ->
     index (values lon_ref) 0 = Ok r2 ->
     let position :=
       position_fields r1 r2
         (signed_by r1 "S" (decimal_degrees (quotient d1) (quotient m1) (quotient s1)))
         (signed_by r2 "W" (decimal_degrees (quotient d2) (quotient m2) (quotient s2))) in
     _extract_gps_info tags =
       match tags !! "GPS GPSAltitude" with
       | None => Ok (Fields position)
       | Some alt =>
           let* altitude := num_over_den (values alt) 0 in
           Ok (Fields (List.app position [altitude_field altitude]))
       end) /\
  (forall x : float,
     signed_by (Chr "S") "S" x = mul x lit_neg_1 /\
     signed_by (Chr "W") "W" x = mul x lit_neg_1 /\
     (valid_binary prec emax x = true -> mul x lit_neg_1 = SFopp x) /\
     (forall (ref : item) (c : ascii), ref <> Chr (String c "") -> signed_by ref c x = x)).
Proof.
  split; [vm_compute; reflexivity|]. split.
  - intros tags lat lat_ref lon lon_ref d1 m1 s1 d2 m2 s2 rest1 rest2 r1 r2
      Hlat Hlat_ref Hlon Hlon_ref Hv1 Hd1 Hm1 Hs1 Hv2 Hd2 Hm2 Hs2 Hr1 Hr2.
    exact (gps_position_fields tags lat lat_ref lon lon_ref d1 m1 s1 d2 m2 s2
             rest1 rest2 r1 r2 Hlat Hlat_ref Hlon Hlon_ref Hv1 Hd1 Hm1 Hs1
             Hv2 Hd2 Hm2 Hs2 Hr1 Hr2).
  - intros x. split; [reflexivity|]. split; [reflexivity|]. split; [apply mul_neg_1_opp|].
    intros ref c Hne. unfold signed_by, eq_chr.
    destruct ref as [n|c']; [reflexivity|].
    destruct (String.eqb_spec c' (String c "")) as [->|_]; [congruence | reflexivity].
Qed.

Lemma gps_conversion_witness :
  _extract_gps_info gps_sydney =
    Ok (Fields [ ("Latitude", PStr "-33.86778° S");
                 ("Longitude", PStr "151.20722° E");
                 ("Google Maps Link",
                  PStr "https://www.google.com/maps?q=-33.867777777777775,151.2072222222222");
                 ("Altitude", PStr "58.00 meters") ]).
Proof.
  exact (proj1 (proj2 gps_conversion) gps_sydney
           (dms_tag 33 52 4) (ref_tag "S") (dms_tag 151 12 26) (ref_tag "E")
           (Ratio 33 1) (Ratio 52 1) (Ratio 4 1) (Ratio 151 1) (Ratio 12 1) (Ratio 26 1)
           [] [] (Chr "S") (Chr "E")
           eq_refl eq_refl eq_refl eq_refl
           eq_refl eq_refl eq_refl eq_refl eq_refl eq_refl eq_refl eq_refl
           eq_refl eq_refl).
Defined.

(** ** The whole extraction *)

Lemma returns_bind {A B : Type} (r : result A) (k : A -> result B) :
  returns r -> (forall a, returns (k a)) -> returns (Py.bind r k).
Proof. destruct r as [a|e]; simpl; [auto | tauto]. Qed.

Lemma only_raises_bind {A B : Type} (P : exn -> Prop) (r : result A) (k : A -> result B) :
  only_raises P r -> (forall a, only_raises P (k a)) -> only_raises P (Py.bind r k).
Proof. destruct r as [a|e]; simpl; auto. Qed.

(** C6, as the specification states it, fails: without any metadata the
    two focal length fields read "N/A mm" and the resolution reads
    "N/A x N/A N/A"; they are not the bare sentinel. *)
Lemma focal_length_without_metadata :
  report_field (extract_clean_image_info plain_png "shots/plain.png")
    "Camera Settings" "Focal Length" = Some (PStr "N/A mm") /\
  report_field (extract_clean_image_info plain_png "shots/plain.png")
    "Other Details" "Resolution" = Some (PStr "N/A x N/A N/A") /\
  report_field (extract_clean_image_info plain_png "shots/plain.png")
    "Camera Settings" "Focal Length" <> Some (PStr "N/A").
Proof.
  repeat split; try (vm_compute; reflexivity). vm_compute. discriminate.
Qed.

(** C6, amended: for a readable image file whose tag directory is empty
    the report is exactly [report_without_tags]: the Image Properties
    come from the container decoder and the file size; every field
    derived from EXIF or GPS tags is "N/A", except Focal Length and
    Focal Length (35mm equivalent), which are "N/A mm", and Resolution,
    which is "N/A x N/A N/A"; the GPS section is the sentinel "N/A";
    File Name and File Path come from the path. *)
Theorem report_of_file_without_metadata (fs : gmap string node) (file_path : string)
    (f : regular_file) (img : PILImage) :
  fs !! file_path = Some (RegularFile f) ->
  readable f = true ->
  image f = Some img ->
  exif f = ∅ ->
  extract_clean_image_info fs file_path =
    Ok (report_without_tags img (st_size f) file_path).
Proof.
  intros Hf Hr Hi He.
  unfold extract_clean_image_info, isfile, Image_open, getsize, open_rb, process_file.
  rewrite Hf. simpl. rewrite Hr. simpl. rewrite Hi. simpl.
  rewrite He. reflexivity.
Qed.

Lemma report_of_file_without_metadata_witness :
  extract_clean_image_info plain_png "shots/plain.png" =
    Ok (report_without_tags png_image 2048 "shots/plain.png").
Proof.
  exact (report_of_file_without_metadata plain_png "shots/plain.png"
           (mkFile true 2048 (Some png_image) ∅) png_image
           (lookup_singleton_eq _ _) eq_refl eq_refl eq_refl).
Defined.

(** *** Which exceptions the tag computations can raise *)

Create HintDb raises.

(** A [str] that is not empty has a first character. *)
Lemma chars_cons (c : ascii) (s : string) :
  exists (ch : string) (more : list string), chars (String c s) = ch :: more.
Proof.
  simpl. destruct (chars s) as [|ch more]; [eauto|].
  destruct (continues ch); eauto.
Qed.

Lemma index_text (c : ascii) (s : string) :
  exists ch : string, index (Text (String c s)) 0 = Ok (Chr ch).
Proof.
  unfold index. destruct (chars_cons c s) as (ch & more & ->). now exists ch.
Qed.

Lemma index_raises (v : tag_values) (i : nat) : only_raises value_error (index v i).
Proof.
  destruct v as [l|s]; simpl.
  - destruct (l !! i); simpl; unfold value_error; auto.
  - destruct (chars s !! i); simpl; unfold value_error; auto.
Qed.

Lemma num_raises (x : item) : only_raises value_error (num x).
Proof. destruct x as [[n|n d]|c]; simpl; unfold value_error; auto. Qed.

Lemma den_raises (x : item) : only_raises value_error (den x).
Proof. destruct x as [[n|n d]|c]; simpl; unfold value_error; auto. Qed.

Lemma of_int_raises (n : Z) : only_raises value_error (of_int n).
Proof.
  unfold of_int. destruct (binary_normalize prec emax n 0 false); simpl;
    unfold value_error; auto.
Qed.

Lemma truediv_raises (a b : float) : only_raises value_error (truediv a b).
Proof. unfold truediv. destruct (is_zero b); simpl; unfold value_error; auto. Qed.

#[local] Hint Resolve index_raises num_raises den_raises of_int_raises truediv_raises
  : raises.

Ltac only_raises_tac :=
  repeat first
    [ exact I
    | solve [auto with raises]
    | apply only_raises_bind; [ | intros ? ]
    | match goal with
      | |- only_raises _ (match ?x with _ => _ end) => destruct x
      end ].

Lemma fraction_to_readable_raises (fraction : option IfdTag) (default_value : string) :
  only_raises value_error (_fraction_to_readable fraction default_value).
Proof. unfold _fraction_to_readable. only_raises_tac. Qed.

Lemma resolve_raises (table : gmap Z string) (key : string) (tags : gmap string IfdTag) :
  only_raises value_error (resolve table key tags).
Proof. unfold resolve. only_raises_tac. Qed.

Lemma flash_info_raises (tags : gmap string IfdTag) :
  only_raises value_error (_get_flash_info tags).
Proof. unfold _get_flash_info. only_raises_tac. Qed.

Lemma orientation_raises (tags : gmap string IfdTag) :
  only_raises value_error (_get_orientation tags).
Proof. unfold _get_orientation. only_raises_tac. Qed.

Lemma color_space_raises (tags : gmap string IfdTag) :
  only_raises value_error (_get_color_space tags).
Proof. unfold _get_color_space. only_raises_tac. Qed.

Lemma noise_reduction_raises (tags : gmap string IfdTag) :
  only_raises value_error (_get_noise_reduction tags).
Proof. unfold _get_noise_reduction. only_raises_tac. Qed.

Lemma subject_area_raises (tags : gmap string IfdTag) :
  only_raises value_error (_get_subject_area tags).
Proof. unfold _get_subject_area. only_raises_tac. Qed.

#[local] Hint Resolve fraction_to_readable_raises resolve_raises flash_info_raises
  orientation_raises color_space_raises noise_reduction_raises subject_area_raises
  : raises.

Lemma resolution_raises (tags : gmap string IfdTag) :
  only_raises value_error (_get_resolution tags).
Proof. unfold _get_resolution, _get_resolution_unit. only_raises_tac. Qed.

Lemma num_over_den_raises (v : tag_values) (i : nat) :
  only_raises value_error (num_over_den v i).
Proof. unfold num_over_den. only_raises_tac. Qed.

#[local] Hint Resolve resolution_raises num_over_den_raises : raises.

Lemma convert_to_degrees_raises (value : IfdTag) :
  only_raises value_error (_convert_to_degrees value).
Proof. unfold _convert_to_degrees. only_raises_tac. Qed.

#[local] Hint Resolve convert_to_degrees_raises : raises.

Lemma extract_gps_info_raises (tags : gmap string IfdTag) :
  only_raises value_error (_extract_gps_info tags).
Proof.
  unfold _extract_gps_info. only_raises_tac.
Qed.

Lemma camera_settings_raises (tags : gmap string IfdTag) :
  only_raises value_error (camera_settings tags).
Proof.
  unfold camera_settings, _get_exposure_mode, _get_white_balance, _get_metering_mode,
    _get_exposure_program, _get_scene_capture_type, _get_focus_mode, _get_shooting_mode.
  only_raises_tac.
Qed.

Lemma other_details_raises (tags : gmap string IfdTag) (file_path : string) :
  only_raises value_error (other_details tags file_path).
Proof.
  unfold other_details, _get_ycbcr_positioning, _get_metering_mode. only_raises_tac.
Qed.

#[local] Hint Resolve extract_gps_info_raises camera_settings_raises other_details_raises
  : raises.

Lemma tag_sections_raises (info : report) (tags : gmap string IfdTag) (file_path : string) :
  only_raises value_error (tag_sections info tags file_path).
Proof. unfold tag_sections. only_raises_tac. Qed.

(** C8, as the specification states it, fails in the direction "if": a
    regular file that cannot be read passes the [os.path.isfile] test,
    and the extraction then fails with [PermissionError], not with
    [FileNotFoundError]. *)
Lemma unreadable_file_is_not_reported_missing :
  regular_readable locked_jpg "locked.jpg" = false /\
  extract_clean_image_info locked_jpg "locked.jpg" = Raise PermissionError /\
  extract_clean_image_info locked_jpg "locked.jpg" <> Raise FileNotFoundError.
Proof.
  repeat split; try (vm_compute; reflexivity). vm_compute. discriminate.
Qed.

(** *** The extraction inside a process *)

Lemma drop_hold (path : string) (w : world) : drop path (hold path w) = w.
Proof.
  destruct w as [fs held limit]. unfold drop, hold. simpl.
  now rewrite String.eqb_refl.
Qed.

(** When the path is not a regular file the extraction stops at the
    test: nothing is opened, whatever the state of the process. *)
Lemma extract_io_not_a_file (file_path : string) (w : world) :
  isfile (files w) file_path = false ->
  extract_clean_image_info_io file_path w = (w, Raise FileNotFoundError).
Proof.
  intros Hfile. unfold extract_clean_image_info_io, io_bind, os_path_isfile.
  now rewrite Hfile.
Qed.

(** What the extraction does to the world and what it returns: the
    world is left as it was found (no file is written, no descriptor is
    held on return or on an exception), and with a descriptor left the
    result is that of the function of the file system. *)
Lemma extract_io_run (file_path : string) (w : world) :
  extract_clean_image_info_io file_path w =
    (w, if has_room w || negb (isfile (files w) file_path)
        then extract_clean_image_info (files w) file_path
        else Raise OSError).
Proof.
  unfold extract_clean_image_info_io, extract_clean_image_info, io_bind at 1,
    os_path_isfile.
  destruct (isfile (files w) file_path); cbn [negb];
    [rewrite orb_false_r | now rewrite orb_true_r].
  unfold io_bind at 1, with_as at 1, PIL_Image_open, io_bind at 1, builtins_open at 1,
    Image_open.
  destruct (has_room w) eqn:Hroom; [|reflexivity].
  destruct (open_rb (files w) file_path) as [f|e] eqn:Hopen; [|reflexivity].
  cbn [Py.bind]. destruct (image f) as [img|].
  - unfold io_ret, io_bind, os_path_getsize. cbn [files hold].
    destruct (getsize (files w) file_path) as [file_size|e]; cbn [fst snd close Py.bind];
      rewrite drop_hold; [|reflexivity].
    unfold with_as, builtins_open. rewrite Hroom, Hopen. unfold io_lift.
    cbn [fst snd close]. now rewrite drop_hold.
  - unfold io_bind, close, io_raise. now rewrite drop_hold.
Qed.

(** C8, amended: the extraction fails with [FileNotFoundError] exactly
    when [os.path.isfile] answers [False] for the path, hence only if
    the path does not name a regular file that can be read (the
    converse fails: a regular file that cannot be read is not reported
    as missing); and in that case it fails at once: the process opens
    nothing, whatever descriptors it holds or may hold, and no report
    is produced. *)
Theorem file_not_found_only_if_not_readable (fs : gmap string node) (file_path : string) :
  (extract_clean_image_info fs file_path = Raise FileNotFoundError <->
   isfile fs file_path = false) /\
  (extract_clean_image_info fs file_path = Raise FileNotFoundError ->
   regular_readable fs file_path = false) /\
  (forall (held : list string) (limit : nat),
     isfile fs file_path = false ->
     extract_clean_image_info_io file_path (mkWorld fs held limit) =
       (mkWorld fs held limit, Raise FileNotFoundError)).
Proof.
  assert (Hiff : extract_clean_image_info fs file_path = Raise FileNotFoundError <->
                 isfile fs file_path = false).
  { unfold extract_clean_image_info. destruct (isfile fs file_path) eqn:Hfile; simpl.
    - split; [|discriminate]. intros Hraise. exfalso.
      unfold isfile in Hfile. unfold Image_open, open_rb, getsize in Hraise.
      destruct (fs !! file_path) as [[f|dir_size|f]|]; try discriminate.
      destruct (readable f); simpl in Hraise; [|discriminate].
      destruct (image f) as [img|]; simpl in Hraise; [|discriminate].
      pose proof (tag_sections_raises
                    (dict_set [] "Image Properties"
                       (Fields (image_properties img (st_size f))))
                    (process_file f) file_path) as Hv.
      simpl in Hv. rewrite Hraise in Hv. simpl in Hv.
      destruct Hv as [Hv | [Hv | [Hv | Hv]]]; discriminate.
    - split; reflexivity. }
  split; [exact Hiff|]. split.
  - intros Hraise. apply Hiff in Hraise. unfold isfile in Hraise. unfold regular_readable.
    destruct (fs !! file_path) as [[f|dir_size|f]|]; (discriminate || reflexivity).
  - intros held limit Hfile.
    now apply (extract_io_not_a_file file_path (mkWorld fs held limit)).
Qed.

Lemma file_not_found_only_if_not_readable_witness :
  extract_clean_image_info sealed_jpg "vault/sealed.jpg" = Raise FileNotFoundError /\
  extract_clean_image_info_io "missing.jpg" exhausted_process =
    (exhausted_process, Raise FileNotFoundError).
Proof.
  split.
  - apply (proj1 (file_not_found_only_if_not_readable sealed_jpg "vault/sealed.jpg")).
    reflexivity.
  - apply (proj2 (proj2 (file_not_found_only_if_not_readable ∅ "missing.jpg"))).
    reflexivity.
Defined.

(** C9: two extractions of a file that was not modified in between
    return the same result.  Inside a process the extraction opens the
    file twice and closes it each time, also when it raises, so the
    world after the call is the world before it and a second call that
    follows returns what the first returned.  More generally, whatever
    happened to other files and to the descriptors of the process in
    between, as long as the node at the path is the same and a
    descriptor is left, the second result is the first; it is the
    result of [extract_clean_image_info] on the file system. *)
Theorem extract_twice_same_report (file_path : string) :
  (forall w : world,
     let (w1, r1) := extract_clean_image_info_io file_path w in
     let (w2, r2) := extract_clean_image_info_io file_path w1 in
     w1 = w /\ w2 = w /\ r2 = r1) /\
  (forall w w' : world,
     files w' !! file_path = files w !! file_path ->
     has_room w = true -> has_room w' = true ->
     snd (extract_clean_image_info_io file_path w') =
     snd (extract_clean_image_info_io file_path w)) /\
  (forall w : world,
     has_room w = true ->
     snd (extract_clean_image_info_io file_path w) =
       extract_clean_image_info (files w) file_path).
Proof.
  split; [|split].
  - intros w. rewrite !extract_io_run. auto.
  - intros w w' Hsame Hw Hw'. rewrite !extract_io_run, Hw, Hw'. cbn [snd orb].
    unfold extract_clean_image_info, isfile, Image_open, getsize, open_rb.
    now rewrite Hsame.
  - intros w Hw. now rewrite extract_io_run, Hw.
Qed.

Lemma extract_twice_same_report_witness :
  snd (extract_clean_image_info_io "sydney.jpg" sydney_process_later) =
  snd (extract_clean_image_info_io "sydney.jpg" sydney_process).
Proof.
  apply (proj1 (proj2 (extract_twice_same_report "sydney.jpg"))
           sydney_process sydney_process_later).
  - apply lookup_insert_ne. discriminate.
  - reflexivity.
  - reflexivity.
Defined.

(** *** The shape of a report *)

Lemma gps_section_shape (tags : gmap string IfdTag) (gps : section) :
  _extract_gps_info tags = Ok gps ->
  gps = Sentinel "N/A" \/ exists d, gps = Fields d /\ d <> [].
Proof.
  unfold _extract_gps_info. intros H.
  apply bind_Ok in H as (g1 & _ & H). apply bind_Ok in H as (g2 & _ & H).
  injection H as <-. destruct g2 as [|kv g2].
  - left. reflexivity.
  - right. exists (kv :: g2). split; [reflexivity | discriminate].
Qed.

(** C10: a report that is returned has exactly the six sections Image
    Properties, Camera Information, Date and Time, Camera Settings, GPS
    Information and Other Details, in this order; all but the GPS
    section are field mappings, and the GPS section is either the bare
    sentinel "N/A" or a field mapping that is not empty. *)
Theorem report_sections (fs : gmap string node) (file_path : string) (r : report) :
  extract_clean_image_info fs file_path = Ok r ->
  exists (properties camera dates settings other : dict pyval) (gps : section),
    r = [ ("Image Properties", Fields properties);
          ("Camera Information", Fields camera);
          ("Date and Time", Fields dates);
          ("Camera Settings", Fields settings);
          ("GPS Information", gps);
          ("Other Details", Fields other) ] /\
    (gps = Sentinel "N/A" \/ exists d, gps = Fields d /\ d <> []).
Proof.
  unfold extract_clean_image_info. destruct (isfile fs file_path); simpl; [|discriminate].
  intros H.
  apply bind_Ok in H as (img & _ & H). apply bind_Ok in H as (file_size & _ & H).
  apply bind_Ok in H as (img_file & _ & H).
  unfold tag_sections in H.
  apply bind_Ok in H as (settings & _ & H). apply bind_Ok in H as (gps & Hgps & H).
  apply bind_Ok in H as (other & _ & H). injection H as <-.
  exists (image_properties img file_size), (camera_information (process_file img_file)),
    (date_and_time (process_file img_file)), settings, other, gps.
  split; [reflexivity|]. exact (gps_section_shape _ _ Hgps).
Qed.

Lemma report_sections_witness :
  exists r : report,
    extract_clean_image_info sydney_jpg "sydney.jpg" = Ok r /\
    exists (properties camera dates settings other : dict pyval) (gps : section),
      r = [ ("Image Properties", Fields properties);
            ("Camera Information", Fields camera);
            ("Date and Time", Fields dates);
            ("Camera Settings", Fields settings);
            ("GPS Information", gps);
            ("Other Details", Fields other) ] /\
      (gps = Sentinel "N/A" \/ exists d, gps = Fields d /\ d <> []).
Proof.
  eexists. split.
  - vm_compute. reflexivity.
  - apply (report_sections sydney_jpg "sydney.jpg"). vm_compute. reflexivity.
Defined.

(** ** Field population without exceptions *)

Lemma index_first_returns (v : tag_values) :
  has_first v = true -> returns (index v 0).
Proof.
  destruct v as [[|x l]|[|c s]]; try (simpl; (discriminate || auto); fail).
  intros _. destruct (index_text c s) as (ch & ->). exact I.
Qed.

Lemma fraction_to_readable_returns (tags : gmap string IfdTag) (key default_value : string) :
  tag_ok has_fraction tags key = true ->
  returns (_fraction_to_readable (tags !! key) default_value).
Proof.
  unfold tag_ok, _fraction_to_readable. destruct (tags !! key) as [tag|]; [|exact (fun _ => I)].
  destruct (values tag) as [[|[n|n d] [|y l]]|s]; simpl;
    try (discriminate || auto).
  destruct (chars s) as [|a [|b more]]; simpl; (discriminate || auto).
Qed.

Lemma resolve_returns (table : gmap Z string) (tags : gmap string IfdTag) (key : string) :
  tag_ok has_first tags key = true -> returns (resolve table key tags).
Proof.
  unfold tag_ok, resolve. destruct (tags !! key) as [tag|]; [|exact (fun _ => I)].
  intros H. apply returns_bind; [now apply index_first_returns | intros; exact I].
Qed.

Lemma flash_info_returns (tags : gmap string IfdTag) :
  tag_ok has_first tags "EXIF Flash" = true -> returns (_get_flash_info tags).
Proof.
  unfold tag_ok, _get_flash_info.
  destruct (tags !! "EXIF Flash") as [tag|]; [|exact (fun _ => I)].
  intros H. apply returns_bind; [now apply index_first_returns|].
  intros x. destruct (eq_int x 0), (eq_int x 1); exact I.
Qed.

Lemma orientation_returns (tags : gmap string IfdTag) :
  tag_ok has_first tags "Image Orientation" = true -> returns (_get_orientation tags).
Proof.
  unfold tag_ok, _get_orientation.
  destruct (tags !! "Image Orientation") as [tag|]; [|exact (fun _ => I)].
  intros H. apply returns_bind; [now apply index_first_returns | intros; exact I].
Qed.

Lemma color_space_returns (tags : gmap string IfdTag) :
  tag_ok has_first tags "EXIF ColorSpace" = true -> returns (_get_color_space tags).
Proof.
  unfold tag_ok, _get_color_space.
  destruct (tags !! "EXIF ColorSpace") as [tag|]; [|exact (fun _ => I)].
  intros H. apply returns_bind; [now apply index_first_returns | intros; exact I].
Qed.

Lemma noise_reduction_returns (tags : gmap string IfdTag) :
  tag_ok has_first tags "EXIF NoiseReduction" = true -> returns (_get_noise_reduction tags).
Proof.
  unfold tag_ok, _get_noise_reduction.
  destruct (tags !! "EXIF NoiseReduction") as [tag|]; [|exact (fun _ => I)].
  intros H. apply returns_bind; [now apply index_first_returns | intros; exact I].
Qed.

Lemma subject_area_returns (tags : gmap string IfdTag) : returns (_get_subject_area tags).
Proof. unfold _get_subject_area. destruct (tags !! "EXIF SubjectArea"); exact I. Qed.

Lemma extract_gps_info_returns (tags : gmap string IfdTag) :
  position_ok good_ratio tags = true ->
  tag_ok (has_ratio good_ratio) tags "GPS GPSAltitude" = true ->
  returns (_extract_gps_info tags).
Proof.
  unfold position_ok, tag_ok, _extract_gps_info. intros Hpos Halt.
  apply returns_bind; [|intros gps_info; apply returns_bind; [|intros; exact I]].
  - destruct (tags !! "GPS GPSLatitude") as [lat|]; [|exact I].
    destruct (tags !! "GPS GPSLatitudeRef") as [lat_ref|]; [|exact I].
    destruct (tags !! "GPS GPSLongitude") as [lon|]; [|exact I].
    destruct (tags !! "GPS GPSLongitudeRef") as [lon_ref|]; [|exact I].
    apply andb_true_iff in Hpos as [Hpos Hr2]. apply andb_true_iff in Hpos as [Hpos Ht2].
    apply andb_true_iff in Hpos as [Ht1 Hr1].
    destruct (values lat) as [[|d1 [|m1 [|s1 rest1]]]|] eqn:Hv1; try discriminate.
    destruct (values lon) as [[|d2 [|m2 [|s2 rest2]]]|] eqn:Hv2; try discriminate.
    simpl in Ht1, Ht2.
    apply andb_true_iff in Ht1 as [Ht1 Hs1]. apply andb_true_iff in Ht1 as [Hd1 Hm1].
    apply andb_true_iff in Ht2 as [Ht2 Hs2]. apply andb_true_iff in Ht2 as [Hd2 Hm2].
    rewrite (convert_to_degrees_good lat d1 m1 s1 rest1 Hv1 Hd1 Hm1 Hs1).
    rewrite (convert_to_degrees_good lon d2 m2 s2 rest2 Hv2 Hd2 Hm2 Hs2).
    simpl.
    apply index_first_returns, returns_Ok in Hr1 as [r1 ->].
    apply index_first_returns, returns_Ok in Hr2 as [r2 ->].
    exact I.
  - destruct (tags !! "GPS GPSAltitude") as [alt|]; [|exact I].
    destruct (values alt) as [[|a rest]|]; try discriminate.
    simpl in Halt. rewrite (num_over_den_good (a :: rest) 0 a eq_refl Halt). exact I.
Qed.

Ltac split_well_formed H :=
  unfold well_formed, shaped, code_tags, fraction_tags in H; simpl forallb in H;
  repeat match goal with
         | H' : _ && _ = true |- _ => apply andb_true_iff in H' as [? ?]
         end.

Ltac returns_tac :=
  repeat first
    [ exact I
    | assumption
    | apply subject_area_returns
    | apply fraction_to_readable_returns; assumption
    | apply resolve_returns; assumption
    | apply flash_info_returns; assumption
    | apply orientation_returns; assumption
    | apply color_space_returns; assumption
    | apply noise_reduction_returns; assumption
    | apply extract_gps_info_returns; assumption
    | apply returns_bind; [ | intros ? ] ].

Lemma camera_settings_returns (tags : gmap string IfdTag) :
  well_formed tags = true -> returns (camera_settings tags).
Proof.
  intros H. split_well_formed H.
  unfold camera_settings, _get_exposure_mode, _get_white_balance, _get_metering_mode,
    _get_exposure_program, _get_scene_capture_type, _get_focus_mode, _get_shooting_mode.
  returns_tac.
Qed.

Lemma other_details_returns (tags : gmap string IfdTag) (file_path : string) :
  well_formed tags = true -> returns (other_details tags file_path).
Proof.
  intros H. split_well_formed H.
  unfold other_details, _get_resolution, _get_resolution_unit, _get_ycbcr_positioning,
    _get_metering_mode.
  returns_tac.
Qed.

(** *** The shape is necessary *)

Lemma returns_bind_inv {A B : Type} (r : result A) (k : A -> result B) :
  returns (Py.bind r k) -> exists a, r = Ok a /\ returns (k a).
Proof. destruct r as [a|e]; simpl; [eauto | tauto]. Qed.

Lemma index_first_returns_inv (v : tag_values) :
  returns (index v 0) -> has_first v = true.
Proof. destruct v as [[|x l]|[|c s]]; simpl; tauto. Qed.

Lemma fraction_to_readable_returns_inv (tags : gmap string IfdTag)
    (key default_value : string) :
  returns (_fraction_to_readable (tags !! key) default_value) ->
  tag_ok has_fraction tags key = true.
Proof.
  unfold tag_ok, _fraction_to_readable. destruct (tags !! key) as [tag|]; [|reflexivity].
  destruct (values tag) as [[|[n|n d] [|y l]]|s]; simpl; try tauto.
  destruct (chars s) as [|a [|b more]]; simpl; tauto.
Qed.

Lemma resolve_returns_inv (table : gmap Z string) (tags : gmap string IfdTag)
    (key : string) :
  returns (resolve table key tags) -> tag_ok has_first tags key = true.
Proof.
  unfold tag_ok, resolve. destruct (tags !! key) as [tag|]; [|reflexivity].
  intros H. apply returns_bind_inv in H as (x & Hx & _).
  apply index_first_returns_inv. now rewrite Hx.
Qed.

Lemma flash_info_returns_inv (tags : gmap string IfdTag) :
  returns (_get_flash_info tags) -> tag_ok has_first tags "EXIF Flash" = true.
Proof.
  unfold tag_ok, _get_flash_info.
  destruct (tags !! "EXIF Flash") as [tag|]; [|reflexivity].
  intros H. apply returns_bind_inv in H as (x & Hx & _).
  apply index_first_returns_inv. now rewrite Hx.
Qed.

Lemma orientation_returns_inv (tags : gmap string IfdTag) :
  returns (_get_orientation tags) -> tag_ok has_first tags "Image Orientation" = true.
Proof.
  unfold tag_ok, _get_orientation.
  destruct (tags !! "Image Orientation") as [tag|]; [|reflexivity].
  intros H. apply returns_bind_inv in H as (x & Hx & _).
  apply index_first_returns_inv. now rewrite Hx.
Qed.

Lemma color_space_returns_inv (tags : gmap string IfdTag) :
  returns (_get_color_space tags) -> tag_ok has_first tags "EXIF ColorSpace" = true.
Proof.
  unfold tag_ok, _get_color_space.
  destruct (tags !! "EXIF ColorSpace") as [tag|]; [|reflexivity].
  intros H. apply returns_bind_inv in H as (x & Hx & _).
  apply index_first_returns_inv. now rewrite Hx.
Qed.

Lemma noise_reduction_returns_inv (tags : gmap string IfdTag) :
  returns (_get_noise_reduction tags) -> tag_ok has_first tags "EXIF NoiseReduction" = true.
Proof.
  unfold tag_ok, _get_noise_reduction.
  destruct (tags !! "EXIF NoiseReduction") as [tag|]; [|reflexivity].
  intros H. apply returns_bind_inv in H as (x & Hx & _).
  apply index_first_returns_inv. now rewrite Hx.
Qed.

Lemma num_over_den_returns_inv (v : tag_values) (i : nat) :
  returns (num_over_den v i) ->
  exists l x, v = Items l /\ l !! i = Some x /\ dividable x = true.
Proof.
  unfold num_over_den. intros H.
  apply returns_bind_inv in H as (a & Ha & H).
  apply returns_bind_inv in H as (n & Hn & H).
  apply returns_bind_inv in H as (x & Hx & H).
  apply returns_bind_inv in H as (b & Hb & H).
  apply returns_bind_inv in H as (d & Hd & H).
  apply returns_bind_inv in H as (y & Hy & H).
  rewrite Ha in Hb. injection Hb as <-.
  destruct v as [l|s]; simpl in Ha.
  - destruct (l !! i) as [q|] eqn:Hl; [|discriminate]. injection Ha as <-.
    destruct q as [k|k d']; [discriminate|]. simpl in Hd. injection Hd as <-.
    exists l, (Ratio k d'). repeat split; [exact Hl|]. simpl.
    destruct (Z.eqb_spec d' 0) as [->|_]; [|reflexivity].
    vm_compute in Hy. injection Hy as <-. contradiction.
  - destruct (chars s !! i); [|discriminate]. injection Ha as <-. discriminate.
Qed.

Lemma convert_to_degrees_returns_inv (value : IfdTag) :
  returns (_convert_to_degrees value) -> has_triplet dividable (values value) = true.
Proof.
  unfold _convert_to_degrees. intros H.
  apply returns_bind_inv in H as (d & Hd & H).
  apply returns_bind_inv in H as (m & Hm & H).
  apply returns_bind_inv in H as (s & Hs & _).
  assert (Hd' : returns (num_over_den (values value) 0)) by now rewrite Hd.
  assert (Hm' : returns (num_over_den (values value) 1)) by now rewrite Hm.
  assert (Hs' : returns (num_over_den (values value) 2)) by now rewrite Hs.
  apply num_over_den_returns_inv in Hd' as (l & x0 & Hv & Hl0 & Hx0).
  apply num_over_den_returns_inv in Hm' as (l1 & x1 & Hv1 & Hl1 & Hx1).
  apply num_over_den_returns_inv in Hs' as (l2 & x2 & Hv2 & Hl2 & Hx2).
  rewrite Hv in Hv1, Hv2. injection Hv1 as <-. injection Hv2 as <-.
  rewrite Hv. destruct l as [|y0 [|y1 [|y2 rest]]]; try discriminate.
  simpl in Hl0, Hl1, Hl2. injection Hl0 as ->. injection Hl1 as ->. injection Hl2 as ->.
  simpl. now rewrite Hx0, Hx1, Hx2.
Qed.

Lemma extract_gps_info_returns_inv (tags : gmap string IfdTag) :
  returns (_extract_gps_info tags) ->
  position_ok dividable tags = true /\
  tag_ok (has_ratio dividable) tags "GPS GPSAltitude" = true.
Proof.
  unfold _extract_gps_info, position_ok, tag_ok. intros H.
  apply returns_bind_inv in H as (g1 & Hpos & H).
  apply returns_bind_inv in H as (g2 & Halt & _).
  split.
  - destruct (tags !! "GPS GPSLatitude") as [lat|]; [|reflexivity].
    destruct (tags !! "GPS GPSLatitudeRef") as [lat_ref|]; [|reflexivity].
    destruct (tags !! "GPS GPSLongitude") as [lon|]; [|reflexivity].
    destruct (tags !! "GPS GPSLongitudeRef") as [lon_ref|]; [|reflexivity].
    assert (Hr : returns
      (let* latitude := _convert_to_degrees lat in
       let* longitude := _convert_to_degrees lon in
       let* r1 := index (values lat_ref) 0 in
       let* r2 := index (values lon_ref) 0 in
       Ok tt)).
    { destruct (_convert_to_degrees lat); [|discriminate]. simpl in *.
      destruct (_convert_to_degrees lon); [|discriminate]. simpl in *.
      destruct (index (values lat_ref) 0); [|discriminate]. simpl in *.
      destruct (index (values lon_ref) 0); [|discriminate]. exact I. }
    apply returns_bind_inv in Hr as (x1 & H1 & Hr).
    apply returns_bind_inv in Hr as (x2 & H2 & Hr).
    apply returns_bind_inv in Hr as (r1 & H3 & Hr).
    apply returns_bind_inv in Hr as (r2 & H4 & _).
    rewrite (convert_to_degrees_returns_inv lat) by now rewrite H1.
    rewrite (convert_to_degrees_returns_inv lon) by now rewrite H2.
    rewrite (index_first_returns_inv (values lat_ref)) by now rewrite H3.
    rewrite (index_first_returns_inv (values lon_ref)) by now rewrite H4.
    reflexivity.
  - destruct (tags !! "GPS GPSAltitude") as [alt|]; [|reflexivity].
    apply bind_Ok in Halt as (a & Ha & _).
    assert (Ha' : returns (num_over_den (values alt) 0)) by now rewrite Ha.
    apply num_over_den_returns_inv in Ha' as (l & x & Hv & Hl & Hx).
    rewrite Hv. destruct l as [|y rest]; [discriminate|].
    simpl in Hl. injection Hl as ->. exact Hx.
Qed.

Ltac returns_inv H :=
  repeat match type of H with
         | returns (Py.bind ?r _) =>
             let a := fresh "a" in
             let Ha := fresh "Ha" in
             apply returns_bind_inv in H as (a & Ha & H);
             assert (returns r) by (rewrite Ha; exact I);
             clear Ha
         end.

Ltac shaped_tac :=
  repeat (apply andb_true_iff; split);
  first
    [ reflexivity
    | assumption
    | apply fraction_to_readable_returns_inv with (default_value := "N/A"); assumption
    | apply fraction_to_readable_returns_inv with (default_value := "N/A "); assumption
    | eapply resolve_returns_inv; eassumption
    | apply flash_info_returns_inv; assumption
    | apply orientation_returns_inv; assumption
    | apply color_space_returns_inv; assumption
    | apply noise_reduction_returns_inv; assumption ].

Lemma tag_sections_returns_inv (info : report) (tags : gmap string IfdTag)
    (file_path : string) :
  returns (tag_sections info tags file_path) -> well_shaped tags = true.
Proof.
  unfold tag_sections. intros H.
  apply returns_bind_inv in H as (settings & Hs & H).
  apply returns_bind_inv in H as (gps & Hg & H).
  apply returns_bind_inv in H as (other & Ho & _).
  assert (Hs' : returns (camera_settings tags)) by now rewrite Hs.
  assert (Hg' : returns (_extract_gps_info tags)) by now rewrite Hg.
  assert (Ho' : returns (other_details tags file_path)) by now rewrite Ho.
  clear Hs Hg Ho.
  apply extract_gps_info_returns_inv in Hg' as [Hpos Halt].
  unfold camera_settings, _get_exposure_mode, _get_white_balance, _get_metering_mode,
    _get_exposure_program, _get_scene_capture_type, _get_focus_mode, _get_shooting_mode
    in Hs'.
  returns_inv Hs'.
  unfold other_details in Ho'. returns_inv Ho'.
  match goal with
  | Hres : returns (_get_resolution tags) |- _ =>
      unfold _get_resolution, _get_resolution_unit in Hres; returns_inv Hres
  end.
  unfold _get_ycbcr_positioning in *.
  unfold well_shaped, shaped, code_tags, fraction_tags. simpl forallb.
  shaped_tac.
Qed.

(** C5, as the specification states it, fails: the assembler has no
    handler, so a field computation that raises ends the extraction.  A
    zero denominator in a GPS rational raises [ZeroDivisionError], and a
    formatter tag with a single integer, or with a text of a single
    character, raises [IndexError]. *)
Lemma field_population_can_raise :
  tag_sections [] gps_zero_denominator "photo.jpg" = Raise ZeroDivisionError /\
  tag_sections [] integer_exposure_time "photo.jpg" = Raise IndexError /\
  tag_sections [] text_exposure_time "photo.jpg" = Raise IndexError.
Proof. repeat split; vm_compute; reflexivity. Qed.

Lemma noise_reduction_contract :
  resolver_contract _get_noise_reduction "EXIF NoiseReduction" spec_noise_reduction "Off".
Proof.
  intros tags. unfold _get_noise_reduction. split.
  - intros ->. reflexivity.
  - intros tag c rest -> ->. unfold Py.bind, index, eq_int, as_int, label_of.
    cbn [lookup list_lookup spec_noise_reduction List.find fst snd].
    rewrite (Z.eqb_sym 1 c). destruct (c =? 1); reflexivity.
Qed.

Lemma gps_nothing_to_report (tags : gmap string IfdTag) :
  position_incomplete tags -> tags !! "GPS GPSAltitude" = None ->
  _extract_gps_info tags = Ok (Sentinel "N/A").
Proof.
  intros Hpos Halt. unfold _extract_gps_info. rewrite Halt.
  destruct Hpos as [H|[H|[H|H]]]; rewrite H;
    repeat match goal with |- context [tags !! ?k] => destruct (tags !! k) end;
    reflexivity.
Qed.

(** C5, amended: for every tag directory whose present tags have the
    shape the code reads, no field computation of the assembler raises,
    and a directory on which none raises has that shape.  The shape is:
    at least one value in each enumerated tag; in each tag given to the
    Rational formatter a first value that is a rational, or else two
    values; when the four position tags are all present, three
    rationals with non-zero denominators in the latitude and in the
    longitude and a non-empty reference for each; in the Altitude tag a
    first rational with a non-zero denominator.  (Sufficiency is stated
    for GPS integers below 2^53, which covers every 32-bit EXIF
    rational.)  An absent tag and a code outside a table are no errors
    and give the sentinels: each resolver answers "N/A" without its tag
    and its fixed word for a code its table does not list ("Unknown",
    but "N/A" for colour space and orientation and "Off" for noise
    reduction); the Rational formatter and the printed tags give the
    caller's default without the tag; the Subject Area is "N/A" without
    its tag; and the GPS section is "N/A" when a position tag is
    missing and there is no Altitude. *)
Theorem well_formed_tags_never_raise :
  (forall (info : report) (tags : gmap string IfdTag) (file_path : string),
     well_formed tags = true ->
     returns (camera_settings tags) /\
     returns (_extract_gps_info tags) /\
     returns (other_details tags file_path) /\
     returns (tag_sections info tags file_path)) /\
  (forall (info : report) (tags : gmap string IfdTag) (file_path : string),
     returns (tag_sections info tags file_path) -> well_shaped tags = true) /\
  Forall (fun c : (gmap string IfdTag -> result string) * string * list (Z * string) * string =>
            resolver_contract (fst (fst (fst c))) (snd (fst (fst c))) (snd (fst c)) (snd c))
         resolver_tables /\
  (forall (tags : gmap string IfdTag) (key default_value : string),
     tags !! key = None ->
     _fraction_to_readable (tags !! key) default_value = Ok default_value /\
     str_get tags key default_value = default_value) /\
  (forall tags : gmap string IfdTag,
     tags !! "EXIF SubjectArea" = None -> _get_subject_area tags = Ok "N/A") /\
  (forall tags : gmap string IfdTag,
     position_incomplete tags -> tags !! "GPS GPSAltitude" = None ->
     _extract_gps_info tags = Ok (Sentinel "N/A")).
Proof.
  split; [|split; [|split; [|split; [|split]]]].
  - intros info tags file_path H.
    pose proof (camera_settings_returns tags H) as Hc.
    pose proof (other_details_returns tags file_path H) as Ho.
    assert (Hg : returns (_extract_gps_info tags)).
    { split_well_formed H. now apply extract_gps_info_returns. }
    repeat split; try assumption.
    unfold tag_sections. returns_tac.
  - intros info tags file_path. apply tag_sections_returns_inv.
  - unfold resolver_tables.
    repeat (apply Forall_cons; split); try apply Forall_nil_2; cbn [fst snd].
    + exact exposure_mode_contract.
    + exact white_balance_contract.
    + exact flash_contract.
    + exact metering_mode_contract.
    + exact exposure_program_contract.
    + exact scene_capture_type_contract.
    + exact resolution_unit_contract.
    + exact ycbcr_positioning_contract.
    + exact focus_mode_contract.
    + exact shooting_mode_contract.
    + exact color_space_contract.
    + exact orientation_contract.
    + exact noise_reduction_contract.
  - intros tags key default_value Hk. unfold str_get. rewrite Hk. split; reflexivity.
  - intros tags Hk. unfold _get_subject_area. now rewrite Hk.
  - exact gps_nothing_to_report.
Qed.

Lemma well_formed_tags_never_raise_witness :
  returns (tag_sections [] gps_sydney "sydney.jpg") /\
  returns (tag_sections [] ∅ "plain.png").
Proof.
  split.
  - exact (proj2 (proj2 (proj2
             (proj1 well_formed_tags_never_raise [] gps_sydney "sydney.jpg" eq_refl)))).
  - exact (proj2 (proj2 (proj2
             (proj1 well_formed_tags_never_raise [] ∅ "plain.png" eq_refl)))).
Defined.

(** * Further properties of the code *)

(** ** What a returned report is made of *)

Ltac invert_binds H :=
  repeat match type of H with
         | Py.bind _ _ = Ok _ =>
             let a := fresh "a" in
             let Ha := fresh "Ha" in
             apply bind_Ok in H as (a & Ha & H)
         end.

Lemma extract_Ok_inv (fs : gmap string node) (file_path : string) (r : report) :
  extract_clean_image_info fs file_path = Ok r ->
  exists (f : regular_file) (img : PILImage) (settings other : dict pyval) (gps : section),
    fs !! file_path = Some (RegularFile f) /\
    readable f = true /\
    image f = Some img /\
    camera_settings (exif f) = Ok settings /\
    _extract_gps_info (exif f) = Ok gps /\
    other_details (exif f) file_path = Ok other /\
    r = [ ("Image Properties", Fields (image_properties img (st_size f)));
          ("Camera Information", Fields (camera_information (exif f)));
          ("Date and Time", Fields (date_and_time (exif f)));
          ("Camera Settings", Fields settings);
          ("GPS Information", gps);
          ("Other Details", Fields other) ].
Proof.
  unfold extract_clean_image_info, isfile, Image_open, getsize, open_rb, process_file.
  destruct (fs !! file_path) as [[f|dir_size|f']|]; simpl; try discriminate.
  destruct (readable f) eqn:Hr; simpl; [|discriminate].
  destruct (image f) as [img|] eqn:Hi; simpl; [|discriminate].
  unfold tag_sections. intros H. invert_binds H. injection H as <-.
  eexists f, img, _, _, _. repeat split; first [eassumption | reflexivity].
Qed.

Lemma gps_Ok_inv (tags : gmap string IfdTag) (gps : section) :
  _extract_gps_info tags = Ok gps ->
  exists pos alt : dict pyval,
    gps = match List.app pos alt with [] => Sentinel "N/A" | d => Fields d end /\
    (if position_present tags
     then exists (lat_ref lon_ref : IfdTag) (r1 r2 : item) (latitude longitude : float),
            tags !! "GPS GPSLatitudeRef" = Some lat_ref /\
            tags !! "GPS GPSLongitudeRef" = Some lon_ref /\
            index (values lat_ref) 0 = Ok r1 /\
            index (values lon_ref) 0 = Ok r2 /\
            pos = position_fields r1 r2 latitude longitude
     else pos = []) /\
    match tags !! "GPS GPSAltitude" with
    | Some alt_tag =>
        exists altitude, num_over_den (values alt_tag) 0 = Ok altitude /\
                         alt = [altitude_field altitude]
    | None => alt = []
    end.
Proof.
  unfold _extract_gps_info, position_present. intros H.
  apply bind_Ok in H as (pos & Hpos & H). apply bind_Ok in H as (all & Halt & H).
  injection H as <-.
  assert (Hp : if position_present tags
     then exists (lat_ref lon_ref : IfdTag) (r1 r2 : item) (latitude longitude : float),
            tags !! "GPS GPSLatitudeRef" = Some lat_ref /\
            tags !! "GPS GPSLongitudeRef" = Some lon_ref /\
            index (values lat_ref) 0 = Ok r1 /\
            index (values lon_ref) 0 = Ok r2 /\
            pos = position_fields r1 r2 latitude longitude
     else pos = []).
  { unfold position_present.
    destruct (tags !! "GPS GPSLatitude") as [lat|]; [|now injection Hpos].
    destruct (tags !! "GPS GPSLatitudeRef") as [lat_ref|]; [|now injection Hpos].
    destruct (tags !! "GPS GPSLongitude") as [lon|]; [|now injection Hpos].
    destruct (tags !! "GPS GPSLongitudeRef") as [lon_ref|]; [|now injection Hpos].
    apply bind_Ok in Hpos as (latitude & _ & Hpos).
    apply bind_Ok in Hpos as (longitude & _ & Hpos).
    apply bind_Ok in Hpos as (r1 & Hr1 & Hpos).
    apply bind_Ok in Hpos as (r2 & Hr2 & Hpos).
    rewrite Hr1 in Hpos. simpl in Hpos. rewrite Hr2 in Hpos. simpl in Hpos.
    injection Hpos as <-.
    exists lat_ref, lon_ref, r1, r2,
      (if eq_chr r1 "S" then mul latitude lit_neg_1 else latitude),
      (if eq_chr r2 "W" then mul longitude lit_neg_1 else longitude).
    repeat split; assumption. }
  destruct (tags !! "GPS GPSAltitude") as [alt_tag|].
  - apply bind_Ok in Halt as (altitude & Ha & Halt). injection Halt as <-.
    exists pos, [altitude_field altitude]. split; [|split; [exact Hp | eauto]].
    destruct (position_present tags).
    + destruct Hp as (? & ? & ? & ? & ? & ? & _ & _ & _ & _ & ->). reflexivity.
    + rewrite Hp. reflexivity.
  - injection Halt as <-. exists pos, []. rewrite app_nil_r.
    split; [|split; [exact Hp | reflexivity]].
    destruct pos; reflexivity.
Qed.

Lemma camera_settings_keys_fixed (tags : gmap string IfdTag) (settings : dict pyval) :
  camera_settings tags = Ok settings ->
  map fst settings = camera_settings_keys /\
  Forall (fun kv => is_str (snd kv)) settings.
Proof.
  unfold camera_settings. intros H. invert_binds H. injection H as <-.
  split; [reflexivity|]. repeat constructor; eexists; reflexivity.
Qed.

Lemma other_details_keys_fixed (tags : gmap string IfdTag) (file_path : string)
    (other : dict pyval) :
  other_details tags file_path = Ok other ->
  map fst other = other_details_keys /\
  Forall (fun kv => is_str (snd kv)) other.
Proof.
  unfold other_details. intros H. invert_binds H. injection H as <-.
  split; [reflexivity|]. repeat constructor; eexists; reflexivity.
Qed.

(** X1: every report that is returned has the same fields: the six
    keys of Image Properties, the six of Camera Information, the four
    of Date and Time, the twenty-two of Camera Settings and the twelve
    of Other Details, each list in the order of the source, whatever
    the tags of the file are. *)
Theorem report_field_schema (fs : gmap string node) (file_path : string) (r : report) :
  extract_clean_image_info fs file_path = Ok r ->
  keys_of r "Image Properties" = Some image_properties_keys /\
  keys_of r "Camera Information" = Some camera_information_keys /\
  keys_of r "Date and Time" = Some date_and_time_keys /\
  keys_of r "Camera Settings" = Some camera_settings_keys /\
  keys_of r "Other Details" = Some other_details_keys.
Proof.
  intros H.
  apply extract_Ok_inv in H
    as (f & img & settings & other & gps & _ & _ & _ & Hs & _ & Ho & ->).
  apply camera_settings_keys_fixed in Hs as [Hs _].
  apply other_details_keys_fixed in Ho as [Ho _].
  unfold keys_of. simpl. rewrite Hs, Ho. repeat split; reflexivity.
Qed.

Lemma report_field_schema_witness :
  exists r : report,
    extract_clean_image_info sydney_jpg "sydney.jpg" = Ok r /\
    keys_of r "Camera Settings" = Some camera_settings_keys /\
    keys_of r "Other Details" = Some other_details_keys.
Proof.
  eexists. split; [vm_compute; reflexivity|].
  assert (H := report_field_schema sydney_jpg "sydney.jpg" _ eq_refl).
  exact (conj (proj1 (proj2 (proj2 (proj2 H)))) (proj2 (proj2 (proj2 (proj2 H))))).
Defined.

(** X2: the keys of the GPS section follow from which tags are
    present: Latitude, Longitude and Google Maps Link appear together,
    exactly when all four position tags are present; Altitude appears,
    last, exactly when the Altitude tag is present; the section is the
    bare "N/A" exactly when that leaves no key. *)
Theorem gps_section_keys (tags : gmap string IfdTag) (gps : section) :
  _extract_gps_info tags = Ok gps ->
  match gps with
  | Sentinel s => s = "N/A" /\ gps_keys tags = []
  | Fields d => map fst d = gps_keys tags /\ gps_keys tags <> []
  end.
Proof.
  intros H. apply gps_Ok_inv in H as (pos & alt & -> & Hpos & Halt).
  unfold gps_keys.
  destruct (position_present tags).
  - destruct Hpos as (? & ? & ? & ? & ? & ? & _ & _ & _ & _ & ->).
    destruct (tags !! "GPS GPSAltitude").
    + destruct Halt as (? & _ & ->). simpl. split; [reflexivity | discriminate].
    + rewrite Halt. simpl. split; [reflexivity | discriminate].
  - rewrite Hpos. destruct (tags !! "GPS GPSAltitude").
    + destruct Halt as (? & _ & ->). simpl. split; [reflexivity | discriminate].
    + rewrite Halt. simpl. split; reflexivity.
Qed.

Lemma gps_section_keys_witness :
  exists d : dict pyval,
    _extract_gps_info gps_sydney = Ok (Fields d) /\
    map fst d = ["Latitude"; "Longitude"; "Google Maps Link"; "Altitude"].
Proof.
  eexists. split; [vm_compute; reflexivity|].
  exact (proj1 (gps_section_keys gps_sydney (Fields _) eq_refl)).
Defined.

(** X3: in every report that is returned, every field outside Image
    Properties is a string: the assembler passes each tag value through
    [str], a formatter or a resolver, and the GPS fields are formatted
    texts.  (Image Properties keeps what PIL gives, the file size as an
    integer.) *)
Theorem tag_fields_are_strings (fs : gmap string node) (file_path : string) (r : report) :
  extract_clean_image_info fs file_path = Ok r ->
  forall (sec : string) (d : dict pyval),
    In (sec, Fields d) r -> sec <> "Image Properties" ->
    Forall (fun kv => is_str (snd kv)) d.
Proof.
  intros H sec d Hin Hsec.
  apply extract_Ok_inv in H
    as (f & img & settings & other & gps & _ & _ & _ & Hs & Hg & Ho & ->).
  apply camera_settings_keys_fixed in Hs as [_ Hs].
  apply other_details_keys_fixed in Ho as [_ Ho].
  simpl in Hin.
  destruct Hin as [Hin | [Hin | [Hin | [Hin | [Hin | [Hin | []]]]]]];
    injection Hin as <- Hd; try congruence; subst.
  - repeat constructor; eexists; reflexivity.
  - repeat constructor; eexists; reflexivity.
  - apply gps_Ok_inv in Hg as (pos & alt & Hgps & Hpos & Halt).
    assert (Hp : Forall (fun kv : string * pyval => is_str (snd kv)) pos).
    { destruct (position_present (exif f)).
      - destruct Hpos as (? & ? & ? & ? & ? & ? & _ & _ & _ & _ & ->).
        repeat constructor; eexists; reflexivity.
      - rewrite Hpos. constructor. }
    assert (Ha : Forall (fun kv : string * pyval => is_str (snd kv)) alt).
    { destruct (exif f !! "GPS GPSAltitude").
      - destruct Halt as (? & _ & ->). repeat constructor; eexists; reflexivity.
      - rewrite Halt. constructor. }
    destruct (List.app pos alt) as [|kv rest] eqn:Happ; [discriminate|].
    injection Hgps as ->. rewrite <- Happ. apply Forall_app. split; assumption.
Qed.

Lemma tag_fields_are_strings_witness :
  exists (r : report) (d : dict pyval),
    extract_clean_image_info sydney_jpg "sydney.jpg" = Ok r /\
    dict_get r "GPS Information" = Some (Fields d) /\
    Forall (fun kv => is_str (snd kv)) d.
Proof.
  eexists. eexists. split; [vm_compute; reflexivity|]. split; [vm_compute; reflexivity|].
  apply (tag_fields_are_strings sydney_jpg "sydney.jpg" _ eq_refl "GPS Information").
  - vm_compute. tauto.
  - discriminate.
Defined.



(** ** The file name *)

#[local] Arguments Ascii.eqb : simpl never.

Lemma existsb_slash_app (a b : string) :
  no_slash (a +:+ b) = no_slash a && no_slash b.
Proof.
  unfold no_slash. induction a as [|c a IH]; simpl.
  - reflexivity.
  - destruct (Ascii.eqb "/" c); simpl; [reflexivity | exact IH].
Qed.

Lemma basename_no_slash (p : string) : no_slash (basename p) = true.
Proof.
  induction p as [|c rest IH]; [reflexivity|].
  simpl basename.
  destruct (existsb (Ascii.eqb "/") (list_ascii_of_string rest)) eqn:Hrest; [exact IH|].
  destruct (Ascii.eqb c "/") eqn:Hc.
  - unfold no_slash. now rewrite Hrest.
  - unfold no_slash. simpl. rewrite Ascii.eqb_sym, Hc, Hrest. reflexivity.
Qed.

Lemma basename_suffix (p : string) : exists dir : string, p = dir +:+ basename p.
Proof.
  induction p as [|c rest IH]; [exists ""; reflexivity|].
  simpl basename.
  destruct (existsb (Ascii.eqb "/") (list_ascii_of_string rest)).
  - destruct IH as [dir IH]. exists (String c dir).
    change (String c dir +:+ basename rest) with (String c (dir +:+ basename rest)).
    f_equal. exact IH.
  - destruct (Ascii.eqb c "/").
    + exists (String c ""). reflexivity.
    + exists "". reflexivity.
Qed.

Lemma basename_slash_free (name : string) :
  no_slash name = true -> basename name = name.
Proof.
  unfold no_slash. destruct name as [|c rest]; [reflexivity|].
  simpl. intros H. apply negb_true_iff in H.
  apply orb_false_iff in H as [Hc Hrest]. rewrite Hrest.
  rewrite Ascii.eqb_sym, Hc. reflexivity.
Qed.

Lemma basename_join (dir name : string) :
  no_slash name = true -> basename (dir +:+ "/" +:+ name) = name.
Proof.
  intros Hname. induction dir as [|c dir IH].
  - change ("" +:+ "/" +:+ name) with (String "/"%char name). simpl basename.
    unfold no_slash in Hname. apply negb_true_iff in Hname.
    rewrite Hname. reflexivity.
  - change (String c dir +:+ "/" +:+ name) with (String c (dir +:+ "/" +:+ name)).
    simpl basename.
    assert (Hs : existsb (Ascii.eqb "/") (list_ascii_of_string (dir +:+ "/" +:+ name))
                 = true).
    { pose proof (existsb_slash_app dir ("/" +:+ name)) as H.
      unfold no_slash in H. apply (f_equal negb) in H. rewrite negb_involutive in H.
      rewrite H. simpl. now rewrite andb_false_r. }
    rewrite Hs. exact IH.
Qed.

(** X5: in every report that is returned, File Path is the path that
    was given and File Name is what follows its last slash: it contains
    no slash, the path ends with it, and for a path [dir/name] whose
    [name] has no slash it is [name]. *)
Theorem file_name_and_path (fs : gmap string node) (file_path : string) (r : report) :
  extract_clean_image_info fs file_path = Ok r ->
  report_field (Ok r) "Other Details" "File Path" = Some (PStr file_path) /\
  exists name : string,
    report_field (Ok r) "Other Details" "File Name" = Some (PStr name) /\
    no_slash name = true /\
    (exists dir, file_path = dir +:+ name) /\
    (forall dir base, no_slash base = true -> file_path = dir +:+ "/" +:+ base ->
                      name = base).
Proof.
  intros H.
  apply extract_Ok_inv in H
    as (f & img & settings & other & gps & _ & _ & _ & _ & _ & Ho & ->).
  unfold other_details in Ho. invert_binds Ho. injection Ho as <-.
  split; [reflexivity|]. exists (basename file_path).
  split; [reflexivity|]. split; [apply basename_no_slash|].
  split; [apply basename_suffix|].
  intros dir base Hbase ->. now apply basename_join.
Qed.

Lemma file_name_and_path_witness :
  report_field (extract_clean_image_info plain_png "shots/plain.png")
    "Other Details" "File Name" = Some (PStr "plain.png").
Proof.
  destruct (file_name_and_path plain_png "shots/plain.png" _ eq_refl)
    as (_ & name & Hname & _ & _ & Hjoin).
  rewrite (Hjoin "shots" "plain.png" eq_refl eq_refl) in Hname. exact Hname.
Defined.

(** ** Which exception the extraction ends with *)

(** X6: the extraction fails with [PermissionError] exactly for a
    regular file that [os.stat] can see and [open] cannot read, and
    with PIL's [UnidentifiedImageError] exactly for a readable regular
    file PIL finds no image in; it never fails with
    [IsADirectoryError]: a directory is reported as missing, and so is
    a file below a directory the process may not search; and an
    exception from the tag values (index, attribute, zero division,
    overflow) only occurs for a readable file PIL could open. *)
Theorem extract_error_taxonomy (fs : gmap string node) (file_path : string) :
  (extract_clean_image_info fs file_path = Raise PermissionError <->
   exists f, fs !! file_path = Some (RegularFile f) /\ readable f = false) /\
  (extract_clean_image_info fs file_path = Raise UnidentifiedImageError <->
   exists f, fs !! file_path = Some (RegularFile f) /\ readable f = true /\ image f = None) /\
  extract_clean_image_info fs file_path <> Raise IsADirectoryError /\
  (forall dir_size, fs !! file_path = Some (Directory dir_size) ->
     extract_clean_image_info fs file_path = Raise FileNotFoundError) /\
  (forall f, fs !! file_path = Some (Unsearchable f) ->
     extract_clean_image_info fs file_path = Raise FileNotFoundError) /\
  (forall e, value_error e -> extract_clean_image_info fs file_path = Raise e ->
     exists f img, fs !! file_path = Some (RegularFile f) /\ readable f = true /\
                   image f = Some img).
Proof.
  unfold extract_clean_image_info, isfile, Image_open, getsize, open_rb, process_file.
  destruct (fs !! file_path) as [[f|dir_size|f]|] eqn:Hf; simpl.
  - destruct (readable f) eqn:Hr; simpl.
    + destruct (image f) as [img|] eqn:Hi; simpl.
      * pose proof (tag_sections_raises
                      (dict_set [] "Image Properties"
                         (Fields (image_properties img (st_size f))))
                      (exif f) file_path) as Hv.
        simpl in Hv.
        destruct (tag_sections _ (exif f) file_path) as [r|e]; simpl in Hv.
        -- repeat split; try discriminate.
           ++ intros (f' & [= <-] & Hr'). congruence.
           ++ intros (f' & [= <-] & _ & Hi'). congruence.
        -- repeat split; try discriminate.
           ++ intros [= ->]. destruct Hv as [Hv|[Hv|[Hv|Hv]]]; discriminate.
           ++ intros (f' & [= <-] & Hr'). congruence.
           ++ intros [= ->]. destruct Hv as [Hv|[Hv|[Hv|Hv]]]; discriminate.
           ++ intros (f' & [= <-] & _ & Hi'). congruence.
           ++ intros [= ->]. destruct Hv as [Hv|[Hv|[Hv|Hv]]]; discriminate.
           ++ intros e' _ _. eauto.
      * repeat split; try discriminate.
        -- intros (f' & [= <-] & Hr'). congruence.
        -- eauto.
        -- intros e [He|[He|[He|He]]] [= <-]; discriminate.
    + repeat split; try discriminate.
      * eauto.
      * intros (f' & [= <-] & Hr' & _). congruence.
      * intros e [He|[He|[He|He]]] [= <-]; discriminate.
  - repeat split; try discriminate.
    + intros (f' & [=] & _).
    + intros (f' & [=] & _).
    + intros e [He|[He|[He|He]]] [= <-]; discriminate.
  - repeat split; try discriminate.
    + intros (f' & [=] & _).
    + intros (f' & [=] & _).
    + intros e [He|[He|[He|He]]] [= <-]; discriminate.
  - repeat split; try discriminate.
    + intros (f' & [=] & _).
    + intros (f' & [=] & _).
    + intros e [He|[He|[He|He]]] [= <-]; discriminate.
Qed.

Lemma extract_error_taxonomy_witness :
  extract_clean_image_info locked_jpg "locked.jpg" = Raise PermissionError /\
  extract_clean_image_info sealed_jpg "vault/sealed.jpg" = Raise FileNotFoundError.
Proof.
  split.
  - apply (proj1 (extract_error_taxonomy locked_jpg "locked.jpg")).
    eexists. split; [apply lookup_singleton_eq | reflexivity].
  - apply (proj1 (proj2 (proj2 (proj2 (proj2
             (extract_error_taxonomy sealed_jpg "vault/sealed.jpg")))))
             (mkFile true 4096 (Some jpeg_image) ∅)).
    apply lookup_singleton_eq.
Defined.

Lemma tag_sections_returns (info : report) (tags : gmap string IfdTag)
    (file_path : string) :
  well_formed tags = true -> returns (tag_sections info tags file_path).
Proof.
  intros H.
  pose proof (camera_settings_returns tags H) as Hc.
  pose proof (other_details_returns tags file_path H) as Ho.
  assert (Hg : returns (_extract_gps_info tags)).
  { split_well_formed H. now apply extract_gps_info_returns. }
  unfold tag_sections. returns_tac.
Qed.

(** X7: the extraction returns a report for every regular file that
    [os.stat] can see and [open] can read, in which PIL finds an image
    and whose tags are well formed; and when it returns a report, the
    file is such a file and its tags have the shape the assembler
    reads. *)
Theorem extract_succeeds (fs : gmap string node) (file_path : string) :
  (forall f img,
     fs !! file_path = Some (RegularFile f) -> readable f = true ->
     image f = Some img -> well_formed (exif f) = true ->
     returns (extract_clean_image_info fs file_path)) /\
  (returns (extract_clean_image_info fs file_path) ->
   exists f img,
     fs !! file_path = Some (RegularFile f) /\ readable f = true /\
     image f = Some img /\ well_shaped (exif f) = true).
Proof.
  split.
  - intros f img Hf Hr Hi Hw.
    unfold extract_clean_image_info, isfile, Image_open, getsize, open_rb, process_file.
    rewrite Hf. simpl. rewrite Hr. simpl. rewrite Hi. simpl.
    now apply tag_sections_returns.
  - unfold extract_clean_image_info, isfile, Image_open, getsize, open_rb, process_file.
    destruct (fs !! file_path) as [[f|dir_size|f']|]; simpl; try tauto.
    destruct (readable f) eqn:Hr; simpl; [|tauto].
    destruct (image f) as [img|] eqn:Hi; simpl; [|tauto].
    intros H. apply tag_sections_returns_inv in H. exists f, img. auto.
Qed.

Lemma extract_succeeds_witness :
  returns (extract_clean_image_info sydney_jpg "sydney.jpg").
Proof.
  exact (proj1 (extract_succeeds sydney_jpg "sydney.jpg")
           (mkFile true 123456 (Some jpeg_image) gps_sydney) jpeg_image
           (lookup_singleton_eq _ _) eq_refl eq_refl eq_refl).
Defined.

(** ** The formatter and the resolvers on a tag that is present *)

(** X8: for a tag that is present the Rational formatter never uses the
    default: its result is the same for every default.  It returns a
    text when the first value is a rational or when there are two
    values, and raises [IndexError] otherwise (no value, or a single
    value that is not a rational). *)
Theorem fraction_to_readable_present (tag : IfdTag) :
  (forall d1 d2 : string,
     _fraction_to_readable (Some tag) d1 = _fraction_to_readable (Some tag) d2) /\
  (has_fraction (values tag) = true ->
   forall d, returns (_fraction_to_readable (Some tag) d)) /\
  (has_fraction (values tag) = false ->
   forall d, _fraction_to_readable (Some tag) d = Raise IndexError).
Proof.
  unfold _fraction_to_readable. repeat split.
  - destruct (values tag) as [[|[n|n d] [|y l]]|s]; simpl;
      [| | | | | destruct (chars s) as [|a [|b more]]; simpl];
      intros; (discriminate || exact I).
  - destruct (values tag) as [[|[n|n d] [|y l]]|s]; simpl;
      [| | | | | destruct (chars s) as [|a [|b more]]; simpl];
      intros; (discriminate || reflexivity).
Qed.

Lemma fraction_to_readable_present_witness :
  _fraction_to_readable (Some (short_tag 4)) "N/A" = Raise IndexError.
Proof.
  exact (proj2 (proj2 (fraction_to_readable_present (short_tag 4))) eq_refl "N/A").
Defined.

Lemma index_first_raises (v : tag_values) :
  has_first v = false -> index v 0 = Raise IndexError.
Proof. destruct v as [[|x l]|[|c s]]; simpl; (discriminate || reflexivity). Qed.

Lemma resolve_empty (table : gmap Z string) (key : string) (tags : gmap string IfdTag) :
  (tag_ok has_first tags key = true -> returns (resolve table key tags)) /\
  (tag_ok has_first tags key = false -> resolve table key tags = Raise IndexError).
Proof.
  split; [apply resolve_returns|].
  unfold tag_ok, resolve. destruct (tags !! key) as [tag|]; [|discriminate].
  intros H. now rewrite (index_first_raises _ H).
Qed.

(** X9: each of the thirteen resolvers of an enumerated tag returns a
    text unless its tag is present without any value, and then it
    raises [IndexError]; the Subject Area resolver, which prints the
    values as a whole, always returns. *)
Theorem resolvers_raise_on_empty_values :
  Forall (fun fk : (gmap string IfdTag -> result string) * string =>
            forall tags : gmap string IfdTag,
              (tag_ok has_first tags (snd fk) = true -> returns (fst fk tags)) /\
              (tag_ok has_first tags (snd fk) = false -> fst fk tags = Raise IndexError))
         enum_resolvers /\
  (forall tags : gmap string IfdTag, returns (_get_subject_area tags)).
Proof.
  split; [|apply subject_area_returns].
  unfold enum_resolvers.
  repeat (apply Forall_cons; split); try apply Forall_nil_2;
    intros tags; simpl fst; simpl snd;
    try apply resolve_empty.
  - split; [apply flash_info_returns|].
    unfold tag_ok, _get_flash_info. destruct (tags !! "EXIF Flash"); [|discriminate].
    intros H. now rewrite (index_first_raises _ H).
  - split; [apply color_space_returns|].
    unfold tag_ok, _get_color_space. destruct (tags !! "EXIF ColorSpace"); [|discriminate].
    intros H. now rewrite (index_first_raises _ H).
  - split; [apply noise_reduction_returns|].
    unfold tag_ok, _get_noise_reduction.
    destruct (tags !! "EXIF NoiseReduction"); [|discriminate].
    intros H. now rewrite (index_first_raises _ H).
  - split; [apply orientation_returns|].
    unfold tag_ok, _get_orientation.
    destruct (tags !! "Image Orientation"); [|discriminate].
    intros H. now rewrite (index_first_raises _ H).
Qed.

Lemma label_of_In (labels : list (Z * string)) (c : Z) (l : string) :
  label_of labels c = Some l -> In l (map snd labels).
Proof.
  unfold label_of. induction labels as [|[k l'] labels IH]; simpl; [discriminate|].
  destruct (k =? c); simpl.
  - intros [= ->]. now left.
  - intros H. right. exact (IH H).
Qed.

Lemma table_get_range (labels : list (Z * string)) (x : item) (fallback : string) :
  In (table_get (list_to_map labels) x fallback) (fallback :: map snd labels).
Proof.
  unfold table_get. destruct (as_int x) as [k|]; [|now left].
  rewrite lookup_labels. destruct (label_of labels k) as [l|] eqn:Hl; simpl.
  - right. exact (label_of_In _ _ _ Hl).
  - now left.
Qed.

Lemma resolve_range (labels : list (Z * string)) (key : string)
    (tags : gmap string IfdTag) (s : string) :
  resolve (list_to_map labels) key tags = Ok s ->
  In s ("N/A" :: "Unknown" :: map snd labels).
Proof.
  unfold resolve. destruct (tags !! key) as [tag|].
  - intros H. apply bind_Ok in H as (x & _ & [= <-]).
    right. apply table_get_range.
  - intros [= <-]. now left.
Qed.

(** X10: whatever the values of its tag are, a resolver only ever
    returns "N/A", "Unknown" or a label of its table; the colour space
    and orientation resolvers never return "Unknown", and the noise
    reduction resolver only returns "N/A", "On" or "Off". *)
Theorem resolver_ranges_hold :
  Forall (fun fr : (gmap string IfdTag -> result string) * list string =>
            forall (tags : gmap string IfdTag) (s : string),
              fst fr tags = Ok s -> In s (snd fr))
         resolver_ranges.
Proof.
  unfold resolver_ranges.
  repeat (apply Forall_cons; split); try apply Forall_nil_2;
    intros tags s; cbn [fst snd];
    try (match goal with
         | |- _ = Ok _ -> In _ ("N/A" :: "Unknown" :: map snd ?l) =>
             exact (resolve_range l _ tags s)
         end).
  - unfold _get_flash_info. destruct (tags !! "EXIF Flash") as [tag|].
    + intros H. apply bind_Ok in H as (x & _ & H).
      destruct (eq_int x 0); [|destruct (eq_int x 1)]; injection H as <-;
        simpl; tauto.
    + intros [= <-]. now left.
  - unfold _get_color_space. destruct (tags !! "EXIF ColorSpace") as [tag|].
    + intros H. apply bind_Ok in H as (x & _ & [= <-]).
      apply (table_get_range spec_color_space).
    + intros [= <-]. now left.
  - unfold _get_orientation. destruct (tags !! "Image Orientation") as [tag|].
    + intros H. apply bind_Ok in H as (x & _ & [= <-]).
      apply (table_get_range spec_orientation).
    + intros [= <-]. now left.
  - unfold _get_noise_reduction. destruct (tags !! "EXIF NoiseReduction") as [tag|].
    + intros H. apply bind_Ok in H as (x & _ & H).
      destruct (eq_int x 1); injection H as <-; simpl; tauto.
    + intros [= <-]. now left.
Qed.

(** X11: a code is looked up as a number equal to an integer.  When the
    first value of the tag is a character (the tag holds text) or a
    rational whose denominator is not 1, no code matches: the ten
    table resolvers and the flash resolver answer "Unknown", colour
    space and orientation answer "N/A", and noise reduction answers
    "Off". *)
Theorem non_integer_codes_fall_back :
  Forall (fun fkb : (gmap string IfdTag -> result string) * string * string =>
            forall (tags : gmap string IfdTag) (tag : IfdTag),
              tags !! snd (fst fkb) = Some tag ->
              (forall c s, values tag = Text (String c s) ->
                 fst (fst fkb) tags = Ok (snd fkb)) /\
              (forall n d rest, values tag = Items (Ratio n d :: rest) -> d <> 1 ->
                 fst (fst fkb) tags = Ok (snd fkb)))
         resolver_fallbacks.
Proof.
  assert (Hr : forall n d, d <> 1 -> as_int (Num (Ratio n d)) = None).
  { intros n d Hd. simpl. destruct (Z.eqb_spec d 1); [contradiction | reflexivity]. }
  unfold resolver_fallbacks.
  repeat (apply Forall_cons; split); try apply Forall_nil_2;
    intros tags tag Htag; simpl fst in *; simpl snd in *;
    unfold _get_exposure_mode, _get_white_balance, _get_metering_mode,
      _get_exposure_program, _get_scene_capture_type, _get_resolution_unit,
      _get_ycbcr_positioning, _get_focus_mode, _get_shooting_mode, resolve,
      _get_flash_info, _get_color_space, _get_orientation, _get_noise_reduction;
    rewrite Htag;
    (split;
     [ intros c s ->; destruct (index_text c s) as (ch & ->); reflexivity
     | intros n d rest -> Hd; simpl; unfold table_get, eq_int;
       rewrite (Hr n d Hd); reflexivity ]).
Qed.

(** ** Exceptions of the GPS conversion *)

Lemma forallb_lookup (l : list number) (i : nat) (x : number) :
  forallb in_range l = true -> l !! i = Some x -> in_range x = true.
Proof.
  revert i. induction l as [|y l IH]; intros i Hall Hi; [discriminate|].
  simpl in Hall. apply andb_true_iff in Hall as [Hy Hl].
  destruct i as [|i]; simpl in Hi.
  - now injection Hi as <-.
  - exact (IH i Hl Hi).
Qed.

Lemma num_over_den_component (l : list number) (i : nat) :
  forallb in_range l = true ->
  num_over_den (Items l) i =
    match component_error (l !! i), l !! i with
    | Some e, _ => Raise e
    | None, Some x => Ok (quotient x)
    | None, None => Raise IndexError
    end.
Proof.
  intros Hall. unfold num_over_den. simpl.
  destruct (l !! i) as [[n|n d]|] eqn:Hi; simpl; try reflexivity.
  pose proof (forallb_lookup l i _ Hall Hi) as Hx. simpl in Hx.
  apply andb_true_iff in Hx as [Hn Hd].
  rewrite (of_int_exact n Hn). simpl. rewrite (of_int_exact d Hd). simpl.
  unfold truediv. destruct (Z.eqb_spec d 0) as [->|Hd0].
  - reflexivity.
  - now rewrite (to_float_nonzero d Hd Hd0).
Qed.

Lemma convert_to_degrees_error (value : IfdTag) (l : list number) (e : exn) :
  values value = Items l -> forallb in_range l = true ->
  triplet_error l = Some e -> _convert_to_degrees value = Raise e.
Proof.
  intros Hv Hall. unfold _convert_to_degrees, triplet_error. rewrite Hv.
  rewrite !(num_over_den_component l _ Hall).
  destruct (component_error (l !! 0%nat)) as [e0|] eqn:H0.
  { intros [= <-]. reflexivity. }
  destruct (l !! 0%nat) as [x0|]; [|discriminate]. simpl.
  destruct (component_error (l !! 1%nat)) as [e1|] eqn:H1.
  { intros [= <-]. reflexivity. }
  destruct (l !! 1%nat) as [x1|]; [|discriminate]. simpl.
  destruct (component_error (l !! 2%nat)) as [e2|] eqn:H2.
  { intros [= <-]. reflexivity. }
  discriminate.
Qed.

(** X12: when the four position tags are present, the first component
    of the latitude (degrees, then minutes, then seconds) that cannot
    be divided decides how the GPS converter fails: a missing component
    raises [IndexError], a plain integer [AttributeError] and a zero
    denominator [ZeroDivisionError]; nothing of the GPS section is
    returned, whatever the longitude and the altitude are.  (The
    integers of the latitude are taken below 2^53, as 32-bit EXIF
    values are.) *)
Theorem gps_latitude_error (tags : gmap string IfdTag) (lat : IfdTag) (l : list number)
    (e : exn) :
  position_present tags = true ->
  tags !! "GPS GPSLatitude" = Some lat ->
  values lat = Items l ->
  forallb in_range l = true ->
  triplet_error l = Some e ->
  _extract_gps_info tags = Raise e.
Proof.
  unfold position_present, _extract_gps_info. intros Hp Hlat Hv Hall He.
  rewrite Hlat in *.
  destruct (tags !! "GPS GPSLatitudeRef"); [|discriminate].
  destruct (tags !! "GPS GPSLongitude"); [|discriminate].
  destruct (tags !! "GPS GPSLongitudeRef"); [|discriminate].
  rewrite (convert_to_degrees_error lat l e Hv Hall He). reflexivity.
Qed.

Lemma gps_latitude_error_witness :
  _extract_gps_info gps_zero_denominator = Raise ZeroDivisionError.
Proof.
  exact (gps_latitude_error gps_zero_denominator
           (mkIfdTag "[40, 26, 0/0]" (Items [Ratio 40 1; Ratio 26 1; Ratio 0 0]))
           [Ratio 40 1; Ratio 26 1; Ratio 0 0] ZeroDivisionError
           eq_refl eq_refl eq_refl eq_refl eq_refl).
Defined.

(** ** The texts of the GPS section *)

Lemma dict_get_app_l {V : Type} (d d' : dict V) (k : string) (v : V) :
  dict_get d k = Some v -> dict_get (List.app d d') k = Some v.
Proof.
  unfold dict_get. induction d as [|[k' v'] d IH]; simpl; [discriminate|].
  destruct (String.eqb k' k); simpl; [auto | exact IH].
Qed.

(** X13: whenever the GPS section has a Latitude field it also has the
    Longitude and the Google Maps Link fields; the latitude text ends
    with the degree sign and the letter N or S, the longitude text with
    the degree sign and E or W, and the link starts with
    "https://www.google.com/maps?q=" and holds two numbers separated by
    a comma.  A reference that is not S is printed as N, one that is
    not W as E. *)
Theorem gps_field_texts (tags : gmap string IfdTag) (d : dict pyval) :
  _extract_gps_info tags = Ok (Fields d) ->
  is_Some (dict_get d "Latitude") ->
  exists (latitude longitude : float) (ns ew : string),
    dict_get d "Latitude" = Some (PStr (format_f 5 latitude +:+ "° " +:+ ns)) /\
    dict_get d "Longitude" = Some (PStr (format_f 5 longitude +:+ "° " +:+ ew)) /\
    dict_get d "Google Maps Link" =
      Some (PStr ("https://www.google.com/maps?q=" +:+ repr latitude +:+ "," +:+
                  repr longitude)) /\
    (ns = "N" \/ ns = "S") /\ (ew = "E" \/ ew = "W").
Proof.
  intros H [v Hv]. apply gps_Ok_inv in H as (pos & alt & Hd & Hpos & Halt).
  destruct (position_present tags).
  - destruct Hpos as (lat_ref & lon_ref & r1 & r2 & latitude & longitude
                      & _ & _ & _ & _ & ->).
    assert (d = List.app (position_fields r1 r2 latitude longitude) alt) as ->.
    { simpl in Hd. now injection Hd. }
    exists latitude, longitude, (hemisphere r1 "S" "N"), (hemisphere r2 "W" "E").
    repeat split; try (apply dict_get_app_l; reflexivity).
    + unfold hemisphere. destruct (eq_chr r1 "S"); auto.
    + unfold hemisphere. destruct (eq_chr r2 "W"); auto.
  - rewrite Hpos in Hd. simpl in Hd.
    destruct (tags !! "GPS GPSAltitude").
    + destruct Halt as (a & _ & ->). injection Hd as ->. discriminate Hv.
    + rewrite Halt in Hd. discriminate Hd.
Qed.

Lemma gps_field_texts_witness :
  exists (latitude : float) (ns : string),
    field_of (_extract_gps_info gps_sydney) "Latitude" =
      Some (PStr (format_f 5 latitude +:+ "° " +:+ ns)) /\
    (ns = "N" \/ ns = "S").
Proof.
  destruct (gps_field_texts gps_sydney _ eq_refl (ex_intro _ _ eq_refl))
    as (latitude & longitude & ns & ew & Hlat & _ & _ & Hns & _).
  exists latitude, ns. split; [exact Hlat | exact Hns].
Defined.

(** ** Tags the assembler does not read *)

Lemma lookup_unused (k key : string) (t : IfdTag) (tags : gmap string IfdTag) :
  ~ In k used_tags -> existsb (String.eqb key) used_tags = true ->
  <[k := t]> tags !! key = tags !! key.
Proof.
  intros Hk Hkey. apply lookup_insert_ne. intros ->. apply Hk.
  apply existsb_exists in Hkey as (x & Hx & Heq).
  apply String.eqb_eq in Heq. now subst.
Qed.

Ltac forget_unused k t tags Hk :=
  repeat match goal with
         | |- context [<[k := t]> tags !! ?key] =>
             rewrite (lookup_unused k key t tags Hk) by reflexivity
         end.

(** X14: a tag the assembler does not look up has no effect on the
    report: adding, replacing or removing a tag whose name is not one
    of the forty-seven names of [used_tags] (a maker note, a thumbnail
    entry, an interoperability tag) leaves the four tag sections, and
    the exception if there is one, exactly as they were. *)
Theorem unused_tags_are_ignored (info : report) (tags : gmap string IfdTag)
    (file_path k : string) (t : IfdTag) :
  ~ In k used_tags ->
  tag_sections info (<[k := t]> tags) file_path = tag_sections info tags file_path.
Proof.
  intros Hk.
  unfold tag_sections, camera_information, date_and_time, camera_settings,
    _extract_gps_info, other_details, str_get, _get_exposure_mode, _get_white_balance,
    _get_flash_info, _get_metering_mode, _get_exposure_program, _get_scene_capture_type,
    _get_color_space, _get_focus_mode, _get_shooting_mode, _get_noise_reduction,
    _get_subject_area, _get_orientation, _get_ycbcr_positioning, _get_resolution,
    _get_resolution_unit, resolve.
  forget_unused k t tags Hk. reflexivity.
Qed.

Lemma unused_tags_are_ignored_witness :
  tag_sections [] (<[ "EXIF MakerNote" := short_tag 7 ]> gps_sydney) "sydney.jpg" =
  tag_sections [] gps_sydney "sydney.jpg".
Proof.
  apply (unused_tags_are_ignored [] gps_sydney "sydney.jpg" "EXIF MakerNote" (short_tag 7)).
  vm_compute. intros H.
  repeat (destruct H as [H|H]; [discriminate H|]). exact H.
Defined.

(** X15: the GPS section is computed from the raw values of the five
    GPS tags and from nothing else: two tag directories that hold the
    same values under Latitude, LatitudeRef, Longitude, LongitudeRef
    and Altitude give the same GPS section (or the same exception),
    whatever the printable texts of these tags and whatever the other
    tags are. *)
Theorem gps_section_reads_values_only (tags tags' : gmap string IfdTag) :
  values <$> tags !! "GPS GPSLatitude" = values <$> tags' !! "GPS GPSLatitude" ->
  values <$> tags !! "GPS GPSLatitudeRef" = values <$> tags' !! "GPS GPSLatitudeRef" ->
  values <$> tags !! "GPS GPSLongitude" = values <$> tags' !! "GPS GPSLongitude" ->
  values <$> tags !! "GPS GPSLongitudeRef" = values <$> tags' !! "GPS GPSLongitudeRef" ->
  values <$> tags !! "GPS GPSAltitude" = values <$> tags' !! "GPS GPSAltitude" ->
  _extract_gps_info tags = _extract_gps_info tags'.
Proof.
  unfold _extract_gps_info, _convert_to_degrees. intros H1 H2 H3 H4 H5.
  destruct (tags !! "GPS GPSLatitude") as [a|], (tags' !! "GPS GPSLatitude") as [a'|];
    try discriminate H1;
  destruct (tags !! "GPS GPSLatitudeRef") as [b|], (tags' !! "GPS GPSLatitudeRef") as [b'|];
    try discriminate H2;
  destruct (tags !! "GPS GPSLongitude") as [c|], (tags' !! "GPS GPSLongitude") as [c'|];
    try discriminate H3;
  destruct (tags !! "GPS GPSLongitudeRef") as [d|],
           (tags' !! "GPS GPSLongitudeRef") as [d'|];
    try discriminate H4;
  destruct (tags !! "GPS GPSAltitude") as [e|], (tags' !! "GPS GPSAltitude") as [e'|];
    try discriminate H5;
  simpl in *;
  repeat match goal with
         | H : Some (values _) = Some (values _) |- _ => injection H as H; rewrite H
         end;
  reflexivity.
Qed.

Lemma gps_section_reads_values_only_witness :
  _extract_gps_info
    (<[ "GPS GPSLatitudeRef" := mkIfdTag "South" (Text "S") ]> gps_sydney) =
  _extract_gps_info gps_sydney.
Proof.
  apply gps_section_reads_values_only; reflexivity.
Defined.

(** ** The printed report *)

Section PrintedReport.

Variable repr_str : string -> string.

Lemma print_fields_lines (category : string) (d : dict pyval) :
  List.filter is_header (print_category repr_str category (Fields d)) =
    [newline +:+ category +:+ ":"] /\
  Forall (fun text => is_header text = true \/ is_indented text = true)
    (print_category repr_str category (Fields d)) /\
  length (print_category repr_str category (Fields d)) = S (length d).
Proof.
  unfold print_category. repeat split.
  - change (is_header (newline +:+ category +:+ ":")) with true.
    cbn [List.filter]. f_equal.
    induction d as [|kv d IH]; [reflexivity|]. simpl. exact IH.
  - constructor; [left; reflexivity|].
    induction d as [|kv d IH]; constructor; [right; reflexivity | exact IH].
  - simpl. now rewrite length_map.
Qed.

Lemma print_sentinel_lines (category s : string) :
  List.filter is_header (print_category repr_str category (Sentinel s)) =
    [newline +:+ category +:+ ":"] /\
  Forall (fun text => is_header text = true \/ is_indented text = true)
    (print_category repr_str category (Sentinel s)) /\
  length (print_category repr_str category (Sentinel s)) = 2%nat.
Proof.
  unfold print_category. split; [reflexivity|]. split; [|reflexivity].
  constructor; [left; reflexivity|]. constructor; [right; reflexivity | constructor].
Qed.

Lemma gps_section_lines (tags : gmap string IfdTag) (gps : section) :
  _extract_gps_info tags = Ok gps ->
  exists n : nat,
    (1 <= n <= 4)%nat /\
    length (print_category repr_str "GPS Information" gps) = S n.
Proof.
  intros H. apply gps_Ok_inv in H as (pos & alt & -> & Hpos & Halt).
  assert (Hp : length pos = 0%nat \/ length pos = 3%nat).
  { destruct (position_present tags).
    - destruct Hpos as (? & ? & ? & ? & ? & ? & _ & _ & _ & _ & ->). now right.
    - rewrite Hpos. now left. }
  assert (Ha : length alt = 0%nat \/ length alt = 1%nat).
  { destruct (tags !! "GPS GPSAltitude").
    - destruct Halt as (? & _ & ->). now right.
    - rewrite Halt. now left. }
  destruct (List.app pos alt) as [|kv rest] eqn:Happ.
  - exists 1%nat. split; [lia | reflexivity].
  - assert (Hl : length (kv :: rest) = (length pos + length alt)%nat)
      by (rewrite <- Happ; apply length_app).
    exists (length (kv :: rest)). split; [simpl in Hl |- *; lia|].
    apply (print_fields_lines "GPS Information" (kv :: rest)).
Qed.

(** X16: printing a report that was returned calls [print], for each
    of the six sections in their order, once with a newline, the
    section name and a colon (which shows as an empty line and the
    header line), and after it once per field, with a text indented by
    two spaces (for a GPS section without fields the single text
    "  N/A").  The six headers are the only texts that start with a
    newline, and [print] is called between 57 and 60 times in all: 56
    times for the headers and the fixed fields, and one to four times
    for the GPS section. *)
Theorem printed_report_layout (fs : gmap string node) (file_path : string) (r : report) :
  extract_clean_image_info fs file_path = Ok r ->
  List.filter is_header (print_clean_image_info repr_str r) =
    [ newline +:+ "Image Properties:"; newline +:+ "Camera Information:";
      newline +:+ "Date and Time:"; newline +:+ "Camera Settings:";
      newline +:+ "GPS Information:"; newline +:+ "Other Details:" ] /\
  Forall (fun text => is_header text = true \/ is_indented text = true)
    (print_clean_image_info repr_str r) /\
  exists n : nat,
    (1 <= n <= 4)%nat /\
    length (print_clean_image_info repr_str r) = (56 + n)%nat.
Proof.
  intros H.
  apply extract_Ok_inv in H
    as (f & img & settings & other & gps & _ & _ & _ & Hs & Hg & Ho & ->).
  apply camera_settings_keys_fixed in Hs as [Hs _].
  apply other_details_keys_fixed in Ho as [Ho _].
  apply (f_equal (@length string)) in Hs, Ho. rewrite length_map in Hs, Ho.
  destruct (gps_section_lines (exif f) gps Hg) as (n & Hn & Hgl).
  unfold print_clean_image_info. cbn [flat_map fst snd]. rewrite app_nil_r.
  assert (Hgh :
    List.filter is_header (print_category repr_str "GPS Information" gps) =
      [newline +:+ "GPS Information:"] /\
    Forall (fun text => is_header text = true \/ is_indented text = true)
      (print_category repr_str "GPS Information" gps)).
  { destruct gps as [d|s].
    - split; apply (print_fields_lines "GPS Information" d).
    - split; apply (print_sentinel_lines "GPS Information" s). }
  destruct Hgh as [Hgh Hgf].
  repeat split.
  - rewrite !List.filter_app, Hgh.
    rewrite !(proj1 (print_fields_lines _ _)). reflexivity.
  - repeat (apply Forall_app; split); try exact Hgf;
      apply (print_fields_lines _ _).
  - exists n. split; [exact Hn|].
    rewrite !length_app, Hgl.
    rewrite !(proj2 (proj2 (print_fields_lines _ _))), Hs, Ho. simpl. lia.
Qed.

End PrintedReport.

Lemma printed_report_layout_witness :
  exists r : report,
    extract_clean_image_info plain_png "shots/plain.png" = Ok r /\
    exists n : nat,
      (1 <= n <= 4)%nat /\
      length (print_clean_image_info (fun s => s) r) = (56 + n)%nat.
Proof.
  eexists. split; [vm_compute; reflexivity|].
  exact (proj2 (proj2 (printed_report_layout (fun s => s) plain_png "shots/plain.png"
                         _ eq_refl))).
Defined.

(** ** The sign of a southern latitude *)

Lemma shr_1_nonneg (mrs : shr_record) : 0 <= shr_m mrs -> 0 <= shr_m (shr_1 mrs).
Proof.
  destruct mrs as [m r s]. simpl. destruct m as [|[p|p|]|[p|p|]]; simpl; lia.
Qed.

Lemma iter_shr_1_nonneg (p : positive) (mrs : shr_record) :
  0 <= shr_m mrs -> 0 <= shr_m (SpecFloat.iter_pos shr_1 p mrs).
Proof.
  revert mrs. induction p as [p IH|p IH|]; intros mrs H; simpl.
  - apply IH, IH, shr_1_nonneg, H.
  - apply IH, IH, H.
  - apply shr_1_nonneg, H.
Qed.

Lemma shr_fexp_nonneg (m e : Z) (l : location) :
  0 <= m -> 0 <= shr_m (fst (shr_fexp prec emax m e l)).
Proof.
  intros H. unfold shr_fexp, shr.
  assert (H0 : 0 <= shr_m (shr_record_of_loc m l)).
  { destruct l as [|[]]; exact H. }
  destruct (fexp prec emax (Zdigits2 m + e) - e); simpl; try exact H0.
  now apply iter_shr_1_nonneg.
Qed.

Lemma round_nearest_even_nonneg (m : Z) (l : location) :
  0 <= m -> 0 <= round_nearest_even m l.
Proof.
  intros H. unfold round_nearest_even. destruct l as [|[]]; try lia.
  destruct (Z.even m); lia.
Qed.

(** Rounding a mantissa that is not negative gives a number with the
    sign that was asked for. *)
Lemma binary_round_aux_sign (s : bool) (m e : Z) (l : location) :
  0 <= m ->
  match binary_round_aux prec emax s m e l with
  | S754_zero s' | S754_infinity s' | S754_finite s' _ _ => s' = s
  | S754_nan => False
  end.
Proof.
  intros H. unfold binary_round_aux.
  pose proof (shr_fexp_nonneg m e l H) as H1.
  destruct (shr_fexp prec emax m e l) as [mrs' e'].
  pose proof (shr_fexp_nonneg
                (round_nearest_even (shr_m mrs') (loc_of_shr_record mrs')) e' loc_Exact
                (round_nearest_even_nonneg _ _ H1)) as H2.
  destruct (shr_fexp prec emax _ e' loc_Exact) as [mrs'' e''].
  simpl in H2. destruct (shr_m mrs'') as [|p|p]; try lia.
  - reflexivity.
  - destruct (e'' <=? emax - prec); reflexivity.
Qed.

Lemma nonnegative_of_sign (x : float) :
  match x with
  | S754_zero s' | S754_infinity s' | S754_finite s' _ _ => s' = false
  | S754_nan => False
  end -> nonnegative x = true.
Proof. destruct x as [s|s| |s m e]; simpl; intros H; subst; tauto. Qed.

Lemma negative_of_sign (x : float) :
  match x with
  | S754_zero s' | S754_infinity s' | S754_finite s' _ _ => s' = true
  | S754_nan => False
  end -> negative x = true.
Proof. destruct x as [s|s| |s m e]; simpl; intros H; subst; tauto. Qed.

Lemma div_nonnegative (a : float) (m : positive) (e : Z) :
  nonnegative a = true -> nonnegative (div a (S754_finite false m e)) = true.
Proof.
  destruct a as [[]|[]| |[] ma ea]; try discriminate; try reflexivity.
  intros _. unfold div, SFdiv, SFdiv_core_binary.
  set (m' := match _ - _ - _ with Z.pos _ => _ | Z0 => _ | Z.neg _ => _ end).
  assert (Hm' : 0 <= m').
  { subst m'. destruct (_ - _ - _); try lia. apply Z.shiftl_nonneg. lia. }
  pose proof (Z_div_mod m' (Zpos m) ltac:(lia)) as Hdiv.
  destruct (Z.div_eucl m' (Zpos m)) as [q r].
  apply nonnegative_of_sign. apply (binary_round_aux_sign false).
  destruct Hdiv as [Hq Hr]. nia.
Qed.

Lemma add_nonnegative (a b : float) :
  nonnegative a = true -> nonnegative b = true -> nonnegative (add a b) = true.
Proof.
  destruct a as [[]|[]| |[] ma ea]; try discriminate;
    destruct b as [[]|[]| |[] mb eb]; try discriminate; try reflexivity.
  intros _ _. unfold add, SFadd. simpl cond_Zopp.
  unfold binary_normalize.
  change (Zpos ?x + Zpos ?y) with (Zpos (x + y)).
  cbn [Z.add]. unfold binary_round.
  destruct (shl_align _ _ _) as [mz ez].
  apply nonnegative_of_sign. apply (binary_round_aux_sign false). lia.
Qed.

Lemma mul_neg_1_negative (x : float) :
  nonnegative x = true -> negative (mul x lit_neg_1) = true.
Proof.
  destruct x as [[]|[]| |[] m e]; try discriminate; try reflexivity.
  intros _. unfold mul, lit_neg_1, SFmul. simpl xorb.
  apply negative_of_sign. apply (binary_round_aux_sign true). lia.
Qed.

Lemma format_f_negative (p : nat) (x : float) :
  negative x = true -> exists t, format_f p x = "-" +:+ t.
Proof.
  destruct x as [[]|[]| |[] m e]; try discriminate; intros _; simpl.
  - eexists. reflexivity.
  - eexists. reflexivity.
  - destruct (ratio_of m e). eexists. reflexivity.
Qed.

Lemma quotient_nonnegative (x : number) :
  nonnegative_ratio x = true -> good_ratio x = true /\ nonnegative (quotient x) = true.
Proof.
  destruct x as [n|n d]; [discriminate|]. simpl.
  intros H. apply andb_true_iff in H as [H Hd]. apply andb_true_iff in H as [H Hn].
  apply andb_true_iff in H as [Hn0 Hd0]. apply Z.leb_le in Hn0. apply Z.ltb_lt in Hd0.
  split.
  - rewrite Hn, Hd. simpl. apply negb_true_iff, Z.eqb_neq. lia.
  - destruct (to_float_exact d Hd ltac:(lia)) as (m & e & Hfd & _).
    replace (d <? 0) with false in Hfd by (symmetry; apply Z.ltb_ge; lia).
    rewrite Hfd. apply div_nonnegative.
    destruct (Z.eq_dec n 0) as [->|Hn1]; [reflexivity|].
    destruct (to_float_exact n Hn Hn1) as (m' & e' & -> & _).
    simpl. apply negb_true_iff, Z.ltb_ge. lia.
Qed.

Lemma decimal_degrees_nonnegative (d m s : float) :
  nonnegative d = true -> nonnegative m = true -> nonnegative s = true ->
  nonnegative (decimal_degrees d m s) = true.
Proof.
  intros Hd Hm Hs. unfold decimal_degrees, lit_60, lit_3600.
  apply add_nonnegative; [apply add_nonnegative|]; auto using div_nonnegative.
Qed.

(** X17: the GPS texts print the signed number and the letter
    together.  For a latitude of degrees, minutes and seconds that are
    not negative and a reference S, the Latitude text starts with a
    minus sign and ends with the letter S; for such a longitude and a
    reference W, the Longitude text starts with a minus sign and ends
    with W. *)
Theorem southern_and_western_texts (tags : gmap string IfdTag)
    (lat lat_ref lon lon_ref : IfdTag) (d1 m1 s1 d2 m2 s2 : number)
    (rest1 rest2 : list number) (r1 r2 : item) :
  tags !! "GPS GPSLatitude" = Some lat ->
  tags !! "GPS GPSLatitudeRef" = Some lat_ref ->
  tags !! "GPS GPSLongitude" = Some lon ->
  tags !! "GPS GPSLongitudeRef" = Some lon_ref ->
  tag_ok (has_ratio good_ratio) tags "GPS GPSAltitude" = true ->
  values lat = Items (d1 :: m1 :: s1 :: rest1) ->
  nonnegative_ratio d1 = true -> nonnegative_ratio m1 = true ->
  nonnegative_ratio s1 = true ->
  values lon = Items (d2 :: m2 :: s2 :: rest2) ->
  nonnegative_ratio d2 = true -> nonnegative_ratio m2 = true ->
  nonnegative_ratio s2 = true ->
  index (values lat_ref) 0 = Ok r1 ->
  index (values lon_ref) 0 = Ok r2 ->
  (r1 = Chr "S" ->
   exists t, field_of (_extract_gps_info tags) "Latitude" =
               Some (PStr ("-" +:+ t +:+ "° S"))) /\
  (r2 = Chr "W" ->
   exists t, field_of (_extract_gps_info tags) "Longitude" =
               Some (PStr ("-" +:+ t +:+ "° W"))).
Proof.
  intros Hlat Hlat_ref Hlon Hlon_ref Halt Hv1 Hd1 Hm1 Hs1 Hv2 Hd2 Hm2 Hs2 Hr1 Hr2.
  apply quotient_nonnegative in Hd1 as [Gd1 Nd1], Hm1 as [Gm1 Nm1], Hs1 as [Gs1 Ns1].
  apply quotient_nonnegative in Hd2 as [Gd2 Nd2], Hm2 as [Gm2 Nm2], Hs2 as [Gs2 Ns2].
  pose proof (decimal_degrees_nonnegative _ _ _ Nd1 Nm1 Ns1) as N1.
  pose proof (decimal_degrees_nonnegative _ _ _ Nd2 Nm2 Ns2) as N2.
  pose proof (gps_position_fields tags lat lat_ref lon lon_ref d1 m1 s1 d2 m2 s2
                rest1 rest2 r1 r2 Hlat Hlat_ref Hlon Hlon_ref Hv1 Gd1 Gm1 Gs1
                Hv2 Gd2 Gm2 Gs2 Hr1 Hr2) as Hgps.
  cbv zeta in Hgps. unfold tag_ok in Halt.
  set (latitude := signed_by r1 "S" _) in Hgps.
  set (longitude := signed_by r2 "W" _) in Hgps.
  assert (Hfield : forall k v,
            dict_get (position_fields r1 r2 latitude longitude) k = Some v ->
            field_of (_extract_gps_info tags) k = Some v).
  { intros k v Hk. rewrite Hgps. destruct (tags !! "GPS GPSAltitude") as [alt|].
    - destruct (values alt) as [[|a rest]|]; try discriminate.
      simpl in Halt. rewrite (num_over_den_good (a :: rest) 0 a eq_refl Halt).
      unfold Py.bind, field_of. now apply dict_get_app_l.
    - exact Hk. }
  split.
  - intros ->.
    destruct (format_f_negative 5 latitude (mul_neg_1_negative _ N1)) as [t Ht].
    exists t. apply Hfield. unfold position_fields, dict_get. simpl.
    rewrite Ht. reflexivity.
  - intros ->.
    destruct (format_f_negative 5 longitude (mul_neg_1_negative _ N2)) as [t Ht].
    exists t. apply Hfield. unfold position_fields, dict_get. simpl.
    rewrite Ht. reflexivity.
Qed.

Lemma southern_and_western_texts_witness :
  exists t, field_of (_extract_gps_info gps_sydney) "Latitude" =
              Some (PStr ("-" +:+ t +:+ "° S")).
Proof.
  exact (proj1 (southern_and_western_texts gps_sydney
           (dms_tag 33 52 4) (ref_tag "S") (dms_tag 151 12 26) (ref_tag "E")
           (Ratio 33 1) (Ratio 52 1) (Ratio 4 1) (Ratio 151 1) (Ratio 12 1) (Ratio 26 1)
           [] [] (Chr "S") (Chr "E")
           eq_refl eq_refl eq_refl eq_refl eq_refl eq_refl eq_refl eq_refl eq_refl
           eq_refl eq_refl eq_refl eq_refl eq_refl eq_refl) eq_refl).
Defined.

(** ** The resolution text *)

(** X18: the Resolution field joins three independent lookups.  It is
    returned exactly when XResolution and YResolution each are absent
    or hold a rational first value (or two values) and ResolutionUnit
    is absent or holds a value.  For whole-number resolutions x/1 and
    y/1 with a unit code the text is "x x y unit", for instance
    "72 x 72 Inches".  Whenever it is returned it is the text of
    XResolution, " x ", the text of YResolution, a space and the unit,
    and each of the three parts whose tag is missing shows as "N/A" in
    its place, whatever the other two are. *)
Theorem resolution_text (tags : gmap string IfdTag) :
  (returns (_get_resolution tags) <->
   tag_ok has_fraction tags "Image XResolution" = true /\
   tag_ok has_fraction tags "Image YResolution" = true /\
   tag_ok has_first tags "Image ResolutionUnit" = true) /\
  (forall (xt yt ut : IfdTag) (x y c : Z) (rx ry ru : list number),
     tags !! "Image XResolution" = Some xt -> values xt = Items (Ratio x 1 :: rx) ->
     tags !! "Image YResolution" = Some yt -> values yt = Items (Ratio y 1 :: ry) ->
     tags !! "Image ResolutionUnit" = Some ut -> values ut = Items (Int c :: ru) ->
     _get_resolution tags =
       Ok (pretty x +:+ " x " +:+ pretty y +:+ " " +:+
           default "Unknown" (label_of spec_resolution_unit c))) /\
  (tags !! "Image XResolution" = None -> tags !! "Image YResolution" = None ->
   forall (ut : IfdTag) (c : Z) (ru : list number),
     tags !! "Image ResolutionUnit" = Some ut -> values ut = Items (Int c :: ru) ->
     _get_resolution tags =
       Ok ("N/A x N/A " +:+ default "Unknown" (label_of spec_resolution_unit c))) /\
  (forall s : string,
     _get_resolution tags = Ok s ->
     exists x y u : string,
       _fraction_to_readable (tags !! "Image XResolution") "N/A" = Ok x /\
       _fraction_to_readable (tags !! "Image YResolution") "N/A" = Ok y /\
       _get_resolution_unit tags = Ok u /\
       s = x +:+ " x " +:+ y +:+ " " +:+ u /\
       (tags !! "Image XResolution" = None -> x = "N/A") /\
       (tags !! "Image YResolution" = None -> y = "N/A") /\
       (tags !! "Image ResolutionUnit" = None -> u = "N/A")).
Proof.
  split; [|split; [|split]].
  - unfold _get_resolution, _get_resolution_unit. split.
    + intros H. returns_inv H.
      repeat split.
      * eapply fraction_to_readable_returns_inv; eassumption.
      * eapply fraction_to_readable_returns_inv; eassumption.
      * eapply resolve_returns_inv; eassumption.
    + intros (Hx & Hy & Hu).
      apply returns_bind; [now apply fraction_to_readable_returns|]. intros x.
      apply returns_bind; [now apply fraction_to_readable_returns|]. intros y.
      apply returns_bind; [now apply resolve_returns | intros; exact I].
  - intros xt yt ut x y c rx ry ru Hx Hxv Hy Hyv Hu Huv.
    unfold _get_resolution. rewrite Hx, Hy.
    rewrite (fraction_to_readable_ratio xt x 1 rx "N/A" Hxv).
    rewrite (fraction_to_readable_ratio yt y 1 ry "N/A" Hyv).
    rewrite (proj2 (resolution_unit_contract tags) ut c ru Hu Huv). reflexivity.
  - intros Hx Hy ut c ru Hu Huv. unfold _get_resolution. rewrite Hx, Hy.
    rewrite (proj2 (resolution_unit_contract tags) ut c ru Hu Huv). reflexivity.
  - intros s H. unfold _get_resolution in H.
    apply bind_Ok in H as (x & Hx & H).
    apply bind_Ok in H as (y & Hy & H).
    apply bind_Ok in H as (u & Hu & H).
    injection H as <-. exists x, y, u. repeat split; try assumption.
    + intros Hnone. rewrite Hnone in Hx. now injection Hx as <-.
    + intros Hnone. rewrite Hnone in Hy. now injection Hy as <-.
    + intros Hnone. rewrite (proj1 (resolution_unit_contract tags) Hnone) in Hu.
      now injection Hu as <-.
Qed.

Lemma resolution_text_witness :
  _get_resolution
    {[ "Image XResolution" := mkIfdTag "72" (Items [Ratio 72 1]);
       "Image YResolution" := mkIfdTag "72" (Items [Ratio 72 1]);
       "Image ResolutionUnit" := short_tag 2 ]} = Ok "72 x 72 Inches".
Proof.
  apply (proj1 (proj2 (resolution_text _))
           (mkIfdTag "72" (Items [Ratio 72 1])) (mkIfdTag "72" (Items [Ratio 72 1]))
           (short_tag 2) 72 72 2 [] [] []); reflexivity.
Defined.
